(** * chainer_sentiment_analysis.ipynb: a shallow embedding

    The notebook is a straight-line Python script that drives a vendor SDK
    (sagemaker), two helper modules of the repository (dataset, s3_util),
    numpy, os and shutil.  The embedding below keeps the cells as they are
    written: every library call becomes one step of a state-and-exception
    monad over a world made of the local file system, the vendor's opaque
    state, the trace of calls issued so far and the text printed.

    A Python [str] is a [string] here: a sequence of characters, one
    [ascii] each, so that the characters are the code points below 256.
    The bytes of a file are a [string] too; what turns them into text is
    the codec of the locale, which belongs to the environment. *)

From Stdlib Require Import ZArith Ascii DecimalString.
From Stdlib Require DecimalPos.
From stdpp Require Import base option list strings gmap.

Local Open Scope Z_scope.

(* ================================================================== *)
(** ** Python string methods used by the notebook                      *)
(* ================================================================== *)

Module Py.

(** [c.isspace()] for the code points below 256: TAB, LF, VT, FF, CR, FS,
    GS, RS, US, SPACE, NEL (U+0085) and NO-BREAK SPACE (U+00A0). *)
Definition isspace (c : ascii) : bool :=
  let n := nat_of_ascii c in
  ((9 <=? n)%nat && (n <=? 13)%nat) || ((28 <=? n)%nat && (n <=? 32)%nat)
  || (n =? 133)%nat || (n =? 160)%nat.

(** [s.lstrip()] *)
Fixpoint lstrip (s : string) : string :=
  match s with
  | EmptyString => EmptyString
  | String c s' => if isspace c then lstrip s' else s
  end.

(** [s.rstrip()]: a suffix made of white space only is dropped. *)
Fixpoint rstrip (s : string) : string :=
  match s with
  | EmptyString => EmptyString
  | String c s' =>
      match rstrip s' with
      | EmptyString => if isspace c then EmptyString else String c EmptyString
      | r => String c r
      end
  end.

(** [s.strip()] *)
Definition strip (s : string) : string := rstrip (lstrip s).

(** [s[1:]] *)
Definition slice_from_1 (s : string) : string :=
  match s with
  | EmptyString => EmptyString
  | String _ s' => s'
  end.

(** [len(s)] *)
Definition len (s : string) : nat := String.length s.

(** [s.startswith(p)] *)
Fixpoint startswith (p s : string) : bool :=
  match p, s with
  | EmptyString, _ => true
  | String a p', String b s' => if Ascii.eqb a b then startswith p' s' else false
  | String _ _, EmptyString => false
  end.

(** [s[n:]] *)
Fixpoint drop (n : nat) (s : string) : string :=
  match n, s with
  | O, _ => s
  | S n', String _ s' => drop n' s'
  | S _, EmptyString => EmptyString
  end.

(** [s.endswith(p)] *)
Definition endswith (p s : string) : bool :=
  String.eqb (drop (String.length s - String.length p) s) p
  && (String.length p <=? String.length s)%nat.

(** [s.replace(old, new)] for a non-empty [old]: every non-overlapping
    occurrence, scanning from the left. [fuel] bounds the scan by the
    length of [s]. *)
Fixpoint replace_go (fuel : nat) (old new s : string) : string :=
  match fuel with
  | O => s
  | S fuel' =>
      match s with
      | EmptyString => EmptyString
      | String c s' =>
          if startswith old s
          then new +:+ replace_go fuel' old new (drop (String.length old) s)
          else String c (replace_go fuel' old new s')
      end
  end.

Definition replace (old new s : string) : string :=
  replace_go (String.length s) old new s.

(** [s.upper()] on ASCII letters. *)
Definition upper_char (c : ascii) : ascii :=
  let n := nat_of_ascii c in
  if ((97 <=? n)%nat && (n <=? 122)%nat) then ascii_of_nat (n - 32) else c.

Fixpoint upper (s : string) : string :=
  match s with
  | EmptyString => EmptyString
  | String c s' => String (upper_char c) (upper s')
  end.

(** [s.split(sep)] for a one-character separator. *)
Fixpoint split (sep : ascii) (s : string) : list string :=
  match s with
  | EmptyString => [EmptyString]
  | String c s' =>
      if Ascii.eqb c sep then EmptyString :: split sep s'
      else match split sep s' with
           | [] => [String c EmptyString]
           | w :: ws => String c w :: ws
           end
  end.

(** Text-mode reading with universal newlines: CR LF and a lone CR are
    read as LF. *)
Fixpoint universal_newlines (s : string) : string :=
  match s with
  | EmptyString => EmptyString
  | String c s' =>
      if Ascii.eqb c "013"%char then
        match s' with
        | String d s'' =>
            if Ascii.eqb d "010"%char
            then String "010"%char (universal_newlines s'')
            else String "010"%char (universal_newlines s')
        | EmptyString => String "010"%char EmptyString
        end
      else String c (universal_newlines s')
  end.

(** Iterating a text file: the lines, each with its terminating LF (the
    last one may lack it). *)
Fixpoint splitlines_keepends (s : string) : list string :=
  match s with
  | EmptyString => []
  | String c s' =>
      if Ascii.eqb c "010"%char then String c EmptyString :: splitlines_keepends s'
      else match splitlines_keepends s' with
           | [] => [String c EmptyString]
           | l :: ls => String c l :: ls
           end
  end.

End Py.


(* ================================================================== *)
(** ** Exceptions and results                                          *)
(* ================================================================== *)

(** The exceptions the notebook can meet. What the vendor SDK and the
    helper modules raise is opaque to the notebook: [VendorError]. *)
Inductive exn : Type :=
| FileExistsError (p : list string)
| FileNotFoundError (p : list string)
| NotADirectoryError (p : list string)
| IsADirectoryError (p : list string)
| IndexError
| ValueError (msg : string)
| KeyError (key : string)
| UnicodeDecodeError
| VendorError (msg : string).

Inductive Result (A : Type) : Type :=
| Ok (a : A)
| Raise (e : exn).
Arguments Ok {A} a.
Arguments Raise {A} e.

(* ================================================================== *)
(** ** The local file system (os, shutil, open)                        *)
(* ================================================================== *)

Module Fs.

(** A path is its list of components; an absolute path starts with the
    component ["/"]. Empty components (doubled or trailing slashes) are
    dropped, as the operating system does. *)
Definition Path : Type := list string.

Definition nonempty (s : string) : bool :=
  match s with EmptyString => false | String _ _ => true end.

Definition parse (s : string) : Path :=
  match Py.split "/" s with
  | EmptyString :: rest => "/" :: filter (fun c => nonempty c = true) rest
  | comps => filter (fun c => nonempty c = true) comps
  end.

(** [os.path.join(a, b)]: an absolute [b] discards [a]. *)
Definition join2 (a b : string) : string :=
  if Py.startswith "/" b then b
  else match a with
       | EmptyString => b
       | _ => if Py.endswith "/" a then a +:+ b else a +:+ "/" +:+ b
       end.

(** [os.path.join(a, *rest)] *)
Definition join (a : string) (rest : list string) : string :=
  fold_left join2 rest a.

Inductive node : Type :=
| Dir
| File (content : string).

(** The entries below the root and the working directory, which always
    exist. *)
Abbreviation FS := (gmap (list string) node).

Definition is_root (p : Path) : bool :=
  match p with
  | [] => true
  | [c] => String.eqb c "/"
  | _ => false
  end.

Definition node_at (m : FS) (p : Path) : option node :=
  if is_root p then Some Dir else m !! p.

(** [os.path.split]: the path without its last component. *)
Definition parent (p : Path) : Path := removelast p.

(** [os.mkdir(p)] *)
Definition mkdir (p : Path) (m : FS) : Result FS :=
  match node_at m p with
  | Some _ => Raise (FileExistsError p)
  | None =>
      match node_at m (parent p) with
      | Some Dir => Ok (<[p := Dir]> m)
      | Some (File _) => Raise (NotADirectoryError p)
      | None => Raise (FileNotFoundError p)
      end
  end.

(** [os.makedirs(name)] with [exist_ok=False], on the reversed path: the
    missing ancestors are made first (a [FileExistsError] of that
    recursive call is passed over, any other error is not), then the leaf
    directory. *)
Fixpoint makedirs_rev (rp : list string) (m : FS) : Result FS :=
  match rp with
  | [] => mkdir [] m
  | _ :: rhead =>
      let made :=
        match rhead, node_at m (rev rhead) with
        | _ :: _, None =>
            match makedirs_rev rhead m with
            | Ok m' => Ok m'
            | Raise (FileExistsError _) => Ok m
            | Raise e => Raise e
            end
        | _, _ => Ok m
        end in
      match made with
      | Ok m' => mkdir (rev rp) m'
      | Raise e => Raise e
      end
  end.

Definition makedirs (name : string) (m : FS) : Result FS :=
  makedirs_rev (rev (parse name)) m.

(** [shutil.rmtree(path)]: the directory and everything below it. *)
Definition rmtree (path : string) (m : FS) : Result FS :=
  let p := parse path in
  match node_at m p with
  | None => Raise (FileNotFoundError p)
  | Some (File _) => Raise (NotADirectoryError p)
  | Some Dir => Ok (filter (fun kv => ¬ p `prefix_of` kv.1) m)
  end.

(** [open(path, 'wb').write(content)] *)
Definition write_file (path : string) (content : string) (m : FS) : Result FS :=
  let p := parse path in
  match node_at m p with
  | Some Dir => Raise (IsADirectoryError p)
  | _ =>
      match node_at m (parent p) with
      | Some Dir => Ok (<[p := File content]> m)
      | Some (File _) => Raise (NotADirectoryError p)
      | None => Raise (FileNotFoundError p)
      end
  end.

(** [open(path, 'r').read()] *)
Definition read_file (path : string) (m : FS) : Result string :=
  let p := parse path in
  match node_at m p with
  | Some (File content) => Ok content
  | Some Dir => Raise (IsADirectoryError p)
  | None => Raise (FileNotFoundError p)
  end.

End Fs.


(* ================================================================== *)
(** ** Data handled by the notebook                                    *)
(* ================================================================== *)

(** A sentence as the array of its word ids, and its label. *)
Definition Sentence : Type := list Z.
Definition Label : Type := Z.
Definition Dataset : Type := list (Sentence * Label).
Definition Vocab : Type := list (string * Z).

(** What the notebook hands to [np.savez] and [np.save]. *)
Inductive NpArray : Type :=
| Sentences (l : list Sentence)
| Labels (l : list Label)
| VocabDict (v : Vocab).

(** [sagemaker.Session()] and the predictor returned by [deploy] are
    handles into the vendor's state. *)
Definition Session : Type := string.
Definition Predictor : Type := string.

(** The arguments of [Chainer(...)]. *)
Record Chainer : Type := {
  entry_point : string;
  source_dir : string;
  role : string;
  sagemaker_session : Session;
  train_instance_count : nat;
  train_instance_type : string;
  hyperparameters : list (string * Z)
}.

(** The lines of a text. *)
Definition TextFile : Type := list string.

(** A file opened for reading in text mode: the lines not read yet, and
    what ends the reading when the bytes after them do not decode. The
    file is decoded as it is read, not when it is opened. *)
Record TextIOWrapper : Type := {
  unread : TextFile;
  pending : option exn
}.

Definition LF : string := String "010"%char EmptyString.

(* ================================================================== *)
(** ** The trace of library calls                                      *)
(* ================================================================== *)

Inductive Call : Type :=
| call_Session
| call_get_execution_role
| call_download_dataset (name : string)
| call_get_stsa_dataset (file_paths : list string)
| call_open (path : string)
| call_makedirs (name : string)
| call_savez (file : string) (kwds : list (string * NpArray))
| call_save (file : string) (arr : NpArray)
| call_upload_data (path key_prefix : string)
| call_rmtree (path : string)
| call_shell (cmd : string)
| call_fit (estimator : Chainer) (inputs : list (string * string))
| call_describe_training_job (TrainingJobName : string)
| call_retrieve_output_from_s3 (s3_url output_dir : string)
| call_Image (filename : string) (width height : nat)
| call_display (filenames : list string)
| call_deploy (initial_instance_count : nat) (instance_type : string)
| call_predict (data : list string)
| call_delete_endpoint.

Inductive Value : Type :=
| VNone
| VStr (s : string)
| VList (l : list string)
| VData (d : Dataset * Dataset * Vocab)
| VRows (rows : list (list string)).

Inductive Outcome : Type :=
| Returned (v : Value)
| Raised (e : exn).

Definition Event : Type := Call * Outcome.

Definition outcome {A : Type} (inj : A -> Value) (r : Result A) : Outcome :=
  match r with
  | Ok a => Returned (inj a)
  | Raise e => Raised e
  end.

Definition VUnit (_ : unit) : Value := VNone.

(* ================================================================== *)
(** ** The libraries the notebook calls                                *)
(* ================================================================== *)

(** A library call reads the local file system, reads and changes the
    vendor's state [W], and returns or raises. *)
Definition ext (W A : Type) : Type := Fs.FS -> W -> Result A * W.

(** A library call that also writes local files. *)
Definition ext_fs (W A : Type) : Type := Fs.FS -> W -> Result A * Fs.FS * W.

Record External (W : Type) : Type := {
  (* sagemaker *)
  sagemaker_Session : ext W Session;
  sagemaker_get_execution_role : ext W string;
  Session_upload_data : Session -> string -> string -> ext W string;
  Session_describe_training_job : Session -> string -> ext W string;
  Chainer_fit : Chainer -> list (string * string) -> ext W string;
  Chainer_deploy : Chainer -> string -> nat -> string -> ext W Predictor;
  Chainer_delete_endpoint : Chainer -> string -> ext W unit;
  Predictor_predict : Predictor -> list string -> ext W (list (list string));
  (* dataset.py and s3_util.py *)
  dataset_download_dataset : string -> ext_fs W (list string);
  dataset_get_stsa_dataset : list string -> ext W (Dataset * Dataset * Vocab);
  s3_util_retrieve_output_from_s3 : string -> string -> ext_fs W unit;
  (* numpy: the bytes of an .npz and of an .npy file *)
  np_npz_bytes : list (string * NpArray) -> Result string;
  np_npy_bytes : NpArray -> Result string;
  (* the codec of the locale: the text of some bytes, if they decode; for
     bytes that do not, the lines a reader gets before the error shows,
     which depends on how the file is buffered *)
  locale_decode : string -> option string;
  locale_lines_before_error : string -> TextFile
}.
Arguments sagemaker_Session {W} _.
Arguments sagemaker_get_execution_role {W} _.
Arguments Session_upload_data {W} _.
Arguments Session_describe_training_job {W} _.
Arguments Chainer_fit {W} _.
Arguments Chainer_deploy {W} _.
Arguments Chainer_delete_endpoint {W} _.
Arguments Predictor_predict {W} _.
Arguments dataset_download_dataset {W} _.
Arguments dataset_get_stsa_dataset {W} _.
Arguments s3_util_retrieve_output_from_s3 {W} _.
Arguments np_npz_bytes {W} _.
Arguments np_npy_bytes {W} _.
Arguments locale_decode {W} _.
Arguments locale_lines_before_error {W} _.

(* ================================================================== *)
(** ** The notebook's monad                                            *)
(* ================================================================== *)

Record World (W : Type) : Type := mkWorld {
  fs : Fs.FS;
  cloud : W;
  trace : list Event;
  stdout : list string
}.
Arguments mkWorld {W}.
Arguments fs {W}.
Arguments cloud {W}.
Arguments trace {W}.
Arguments stdout {W}.

Definition NB (W A : Type) : Type := World W -> Result A * World W.

Definition nb_ret {W A : Type} (a : A) : NB W A := fun w => (Ok a, w).

Definition nb_bind {W A B : Type} (m : NB W A) (k : A -> NB W B) : NB W B :=
  fun w =>
    match m w with
    | (Ok a, w') => k a w'
    | (Raise e, w') => (Raise e, w')
    end.

Definition nb_raise {W A : Type} (e : exn) : NB W A := fun w => (Raise e, w).

Notation "x <- m ;;; k" := (nb_bind m (fun x => k))
  (at level 100, m at next level, right associativity, only parsing).
Notation "m ;;; k" := (nb_bind m (fun _ => k))
  (at level 100, right associativity, only parsing).

(** [try: body finally: handler]. The handler always runs; when it raises,
    its exception is the one that leaves the statement. *)
Definition try_finally {W A : Type} (body : NB W A) (handler : NB W unit) : NB W A :=
  fun w =>
    let '(r, w1) := body w in
    match handler w1 with
    | (Ok _, w2) => (r, w2)
    | (Raise e, w2) => (Raise e, w2)
    end.

Definition log {W : Type} (c : Call) (o : Outcome) (w : World W) : list Event :=
  trace w ++ [(c, o)].

(** A call into a library. *)
Definition call {W A : Type} (c : Call) (inj : A -> Value) (f : ext W A) : NB W A :=
  fun w =>
    let '(r, cl) := f (fs w) (cloud w) in
    (r, mkWorld (fs w) cl (log c (outcome inj r) w) (stdout w)).

Definition call_fs {W A : Type} (c : Call) (inj : A -> Value) (f : ext_fs W A) : NB W A :=
  fun w =>
    let '(r, m, cl) := f (fs w) (cloud w) in
    (r, mkWorld m cl (log c (outcome inj r) w) (stdout w)).

(** A call that changes the local file system only. *)
Definition fs_update {W : Type} (c : Call) (f : Fs.FS -> Result Fs.FS) : NB W unit :=
  fun w =>
    match f (fs w) with
    | Ok m => (Ok tt, mkWorld m (cloud w) (log c (Returned VNone) w) (stdout w))
    | Raise e => (Raise e, mkWorld (fs w) (cloud w) (log c (Raised e) w) (stdout w))
    end.

(** A call that reads the local file system only. *)
Definition fs_read {W A : Type} (c : Call) (inj : A -> Value) (f : Fs.FS -> Result A) : NB W A :=
  fun w =>
    let r := f (fs w) in
    (r, mkWorld (fs w) (cloud w) (log c (outcome inj r) w) (stdout w)).

(** A call with no effect but its entry in the trace. *)
Definition note {W : Type} (c : Call) : NB W unit :=
  fun w => (Ok tt, mkWorld (fs w) (cloud w) (log c (Returned VNone) w) (stdout w)).

(** [print(s)] *)
Definition print {W : Type} (s : string) : NB W unit :=
  fun w => (Ok tt, mkWorld (fs w) (cloud w) (trace w) (stdout w ++ [s +:+ LF])).

(** [l[i]] *)
Definition subscript {W : Type} (l : list string) (i : nat) : NB W string :=
  match l !! i with
  | Some x => nb_ret x
  | None => nb_raise IndexError
  end.

(** [a, b, c = row] *)
Definition unpack3 {W : Type} (row : list string) : NB W (string * string * string) :=
  match row with
  | [a; b; c] => nb_ret (a, b, c)
  | _ => nb_raise (ValueError "unpack")
  end.

(** A result as a step of the notebook. *)
Definition nb_lift {W A : Type} (r : Result A) : NB W A := fun w => (r, w).

(** [f.readline()]: the next line; the empty string at the end of the
    file; the error when the bytes that come next do not decode. *)
Definition readline (f : TextIOWrapper) : Result (string * TextIOWrapper) :=
  match unread f with
  | line :: rest => Ok (line, {| unread := rest; pending := pending f |})
  | [] =>
      match pending f with
      | Some e => Raise e
      | None => Ok (EmptyString, f)
      end
  end.

(** [f.readlines(hint)]: for a positive hint, lines are read until the
    size of the ones read so far exceeds it. *)
Fixpoint readlines_loop (hint length : Z) (f : TextFile) : list string * TextFile :=
  match f with
  | [] => ([], [])
  | line :: f' =>
      let line_length := Z.of_nat (Py.len line) in
      if hint - length <? line_length then ([line], f')
      else
        let '(result, rest) := readlines_loop hint (length + line_length) f' in
        (line :: result, rest)
  end.

Definition readlines (hint : Z) (f : TextFile) : list string * TextFile :=
  if hint <=? 0 then (f, []) else readlines_loop hint 0 f.

(** The same on an open file: the loop asks for a line after the last
    one only when the hint is not exceeded yet, and it is then that bytes
    that do not decode raise. *)
Fixpoint readlines_file_loop (hint length : Z) (lines : TextFile) (pending : option exn)
  : Result (list string * TextIOWrapper) :=
  match lines with
  | [] =>
      match pending with
      | Some e => Raise e
      | None => Ok ([], {| unread := []; pending := None |})
      end
  | line :: f' =>
      let line_length := Z.of_nat (Py.len line) in
      if hint - length <? line_length
      then Ok ([line], {| unread := f'; pending := pending |})
      else
        match readlines_file_loop hint (length + line_length) f' pending with
        | Ok (result, rest) => Ok (line :: result, rest)
        | Raise e => Raise e
        end
  end.

Definition readlines_file (hint : Z) (f : TextIOWrapper)
  : Result (list string * TextIOWrapper) :=
  if hint <=? 0
  then match pending f with
       | Some e => Raise e
       | None => Ok (unread f, {| unread := []; pending := None |})
       end
  else readlines_file_loop hint 0 (unread f) (pending f).

(* ================================================================== *)
(** ** The cells                                                       *)
(* ================================================================== *)

(** [[element[0] for element in ds]] and [[element[1] for element in ds]] *)
Definition column_0 (ds : Dataset) : list Sentence := map (fun element => element.1) ds.
Definition column_1 (ds : Dataset) : list Label := map (fun element => element.2) ds.

(** [np.savez] and [np.save] add the extension when the name lacks it. *)
Definition npz_name (file : string) : string :=
  if Py.endswith ".npz" file then file else file +:+ ".npz".
Definition npy_name (file : string) : string :=
  if Py.endswith ".npy" file then file else file +:+ ".npy".

(** 'sentence: {}\nprediction: {}\nscore: {}\n'.format(sentence, prediction, score) *)
Definition format_prediction (sentence prediction score : string) : string :=
  "sentence: " +:+ sentence +:+ LF +:+ "prediction: " +:+ prediction +:+ LF
  +:+ "score: " +:+ score +:+ LF.

(** The sentences of cell 17. *)
Definition sample_sentences : list string :=
  [ "It is fun and easy to train Chainer models on Amazon SageMaker!";
    "It used to be slow, difficult, and laborious to train and deploy a model to production.";
    "But now it is super fast to deploy to production. And I love it when my model generalizes!" ].

Section Notebook.

Context {W : Type} (lib : External W).

(** The text layer over the bytes of a file. *)
Definition TextIOWrapper_of (content : string) : TextIOWrapper :=
  match locale_decode lib content with
  | Some text =>
      {| unread := Py.splitlines_keepends (Py.universal_newlines text);
         pending := None |}
  | None =>
      {| unread := locale_lines_before_error lib content;
         pending := Some UnicodeDecodeError |}
  end.

(** [open(path, 'r')] *)
Definition open_r (path : string) : NB W TextIOWrapper :=
  content <- fs_read (call_open path) VStr (Fs.read_file path) ;;;
  nb_ret (TextIOWrapper_of content).

(** [with open(path, 'r') as f: body]: the file is closed on the way out,
    whatever the body did. *)
Definition with_open {A : Type} (path : string) (body : TextIOWrapper -> NB W A) : NB W A :=
  f <- open_r path ;;;
  try_finally (body f) (nb_ret tt).

Definition makedirs (name : string) : NB W unit :=
  fs_update (call_makedirs name) (Fs.makedirs name).

Definition rmtree (path : string) : NB W unit :=
  fs_update (call_rmtree path) (Fs.rmtree path).

Definition savez_fs (file : string) (kwds : list (string * NpArray)) (m : Fs.FS) : Result Fs.FS :=
  match np_npz_bytes lib kwds with
  | Ok bytes => Fs.write_file (npz_name file) bytes m
  | Raise e => Raise e
  end.

Definition save_fs (file : string) (arr : NpArray) (m : Fs.FS) : Result Fs.FS :=
  match np_npy_bytes lib arr with
  | Ok bytes => Fs.write_file (npy_name file) bytes m
  | Raise e => Raise e
  end.

Definition np_savez (file : string) (kwds : list (string * NpArray)) : NB W unit :=
  fs_update (call_savez file kwds) (savez_fs file kwds).

Definition np_save (file : string) (arr : NpArray) : NB W unit :=
  fs_update (call_save file arr) (save_fs file arr).

Definition upload_data (session : Session) (path key_prefix : string) : NB W string :=
  call (call_upload_data path key_prefix) VStr
       (Session_upload_data lib session path key_prefix).

Definition predict (predictor : Predictor) (data : list string) : NB W (list (list string)) :=
  call (call_predict data) VRows (Predictor_predict lib predictor data).

(** [Image(filename=..., width=..., height=...)] reads the file. *)
Definition Image (filename : string) (width height : nat) : NB W string :=
  fs_read (call_Image filename width height) VStr (Fs.read_file filename) ;;;
  nb_ret filename.

(** [for i in range(n): line = f.readline(); print(line)] *)
Fixpoint for_readline_print (n : nat) (f : TextIOWrapper) : NB W TextIOWrapper :=
  match n with
  | O => nb_ret f
  | S n' =>
      line_f <- nb_lift (readline f) ;;;
      let '(line, f') := line_f in
      print line ;;;
      for_readline_print n' f'
  end.

(** [for prediction in predictions:
       sentence, prediction, score = prediction
       print('sentence: {}\nprediction: {}\nscore: {}\n'.format(...))] *)
Fixpoint for_print_predictions (predictions : list (list string)) : NB W unit :=
  match predictions with
  | [] => nb_ret tt
  | prediction :: rest =>
      row <- unpack3 prediction ;;;
      let '(sentence, prediction, score) := row in
      print (format_prediction sentence prediction score) ;;;
      for_print_predictions rest
  end.

(** Cell 1: setup. *)
Definition cell_1 : NB W (Session * string) :=
  sagemaker_session <- call call_Session VStr (sagemaker_Session lib) ;;;
  role <- call call_get_execution_role VStr (sagemaker_get_execution_role lib) ;;;
  nb_ret (sagemaker_session, role).

(** Cell 3: downloading training and test data. *)
Definition cell_3 : NB W (list string * (Dataset * Dataset * Vocab)) :=
  file_paths <- call_fs (call_download_dataset "stsa.binary") VList
                  (dataset_download_dataset lib "stsa.binary") ;;;
  new_file_paths <- call (call_get_stsa_dataset file_paths) VData
                      (dataset_get_stsa_dataset lib file_paths) ;;;
  train_test_vocab <- call (call_get_stsa_dataset file_paths) VData
                        (dataset_get_stsa_dataset lib file_paths) ;;;
  path <- subscript file_paths 0 ;;;
  with_open path (fun f => for_readline_print 20 f) ;;;
  nb_ret (file_paths, train_test_vocab).

(** Cell 5: uploading the data. *)
Definition cell_5 (sagemaker_session : Session) (train test : Dataset) (vocab : Vocab)
  : NB W (string * string * string) :=
  let train_data := column_0 train in
  let train_labels := column_1 train in
  let test_data := column_0 test in
  let test_labels := column_1 test in
  try_finally
    (makedirs "/tmp/data/train_sentiment" ;;;
     makedirs "/tmp/data/test_sentiment" ;;;
     makedirs "/tmp/data/vocab" ;;;
     np_savez "/tmp/data/train_sentiment/train.npz"
              [("data", Sentences train_data); ("labels", Labels train_labels)] ;;;
     np_savez "/tmp/data/test_sentiment/test.npz"
              [("data", Sentences test_data); ("labels", Labels test_labels)] ;;;
     np_save "/tmp/data/vocab/vocab.npy" (VocabDict vocab) ;;;
     train_input <- upload_data sagemaker_session
                      (Fs.join "/tmp" ["data"; "train_sentiment"])
                      "notebook/chainer_sentiment/train" ;;;
     test_input <- upload_data sagemaker_session
                     (Fs.join "/tmp" ["data"; "test_sentiment"])
                     "notebook/chainer_sentiment/test" ;;;
     vocab_input <- upload_data sagemaker_session
                      (Fs.join "/tmp" ["data"; "vocab"])
                      "notebook/chainer_sentiment/vocab" ;;;
     nb_ret (train_input, test_input, vocab_input))
    (rmtree "/tmp/data").

(** Cell 7: [!pygmentize 'src/sentiment_analysis.py']; a shell escape
    raises nothing. *)
Definition cell_7 : NB W unit :=
  note (call_shell "pygmentize 'src/sentiment_analysis.py'").

(** Cell 9: running the training script. The name of the training job is
    what [chainer_estimator.latest_training_job.name] holds after [fit]. *)
Definition cell_9 (sagemaker_session : Session) (role : string)
           (train_input test_input vocab_input : string) : NB W (Chainer * string) :=
  let chainer_estimator :=
    {| entry_point := "sentiment_analysis.py";
       source_dir := "src";
       role := role;
       sagemaker_session := sagemaker_session;
       train_instance_count := 1;
       train_instance_type := "ml.p2.xlarge";
       hyperparameters := [("epochs", 10); ("batch-size", 64)] |} in
  let inputs := [("train", train_input); ("test", test_input); ("vocab", vocab_input)] in
  latest_training_job <- call (call_fit chainer_estimator inputs) VStr
                           (Chainer_fit lib chainer_estimator inputs) ;;;
  nb_ret (chainer_estimator, latest_training_job).

(** Cell 11: downloading the output artifacts. *)
Definition cell_11 (sagemaker_session : Session) (latest_training_job : string) : NB W unit :=
  let chainer_training_job := latest_training_job in
  S3ModelArtifacts <- call (call_describe_training_job chainer_training_job) VStr
                        (Session_describe_training_job lib sagemaker_session
                           chainer_training_job) ;;;
  let output_data := Py.replace "model.tar.gz" "output.tar.gz" S3ModelArtifacts in
  call_fs (call_retrieve_output_from_s3 output_data "output/sentiment") VUnit
          (s3_util_retrieve_output_from_s3 lib output_data "output/sentiment").

(** Cell 13: the plots. *)
Definition cell_13 : NB W unit :=
  accuracy_graph <- Image "output/sentiment/accuracy.png" 800 800 ;;;
  loss_graph <- Image "output/sentiment/loss.png" 800 800 ;;;
  note (call_display [accuracy_graph; loss_graph]).

(** Cell 15: deploying the trained model. *)
Definition cell_15 (chainer_estimator : Chainer) (latest_training_job : string)
  : NB W Predictor :=
  call (call_deploy 1 "ml.m4.xlarge") VStr
       (Chainer_deploy lib chainer_estimator latest_training_job 1 "ml.m4.xlarge").

(** Cell 17: predicting on a batch of sentences. *)
Definition cell_17 (predictor : Predictor) : NB W unit :=
  let sentences := sample_sentences in
  predictions <- predict predictor sentences ;;;
  for_print_predictions predictions.

(** Cell 19: predicting on sentences of the test set. *)
Definition cell_19 (predictor : Predictor) (file_paths : list string) : NB W unit :=
  path <- subscript file_paths 1 ;;;
  sentences <- with_open path (fun f =>
      sentences_f <- nb_lift (readlines_file 2000 f) ;;;
      let sentences := sentences_f.1 in
      let sentences := map (fun sentence => Py.strip (Py.slice_from_1 sentence)) sentences in
      predictions <- predict predictor sentences ;;;
      nb_ret sentences) ;;;
  predictions <- predict predictor sentences ;;;
  for_print_predictions predictions.

(** Cell 21: cleanup. *)
Definition cell_21 (chainer_estimator : Chainer) (latest_training_job : string) : NB W unit :=
  call call_delete_endpoint VUnit
       (Chainer_delete_endpoint lib chainer_estimator latest_training_job).

(** A run of the notebook from top to bottom: the first cell that raises
    stops it. *)
Definition notebook : NB W unit :=
  session_role <- cell_1 ;;;
  let '(sagemaker_session, role) := session_role in
  data <- cell_3 ;;;
  let '(file_paths, (train, test, vocab)) := data in
  inputs <- cell_5 sagemaker_session train test vocab ;;;
  let '(train_input, test_input, vocab_input) := inputs in
  cell_7 ;;;
  estimator_job <- cell_9 sagemaker_session role train_input test_input vocab_input ;;;
  let '(chainer_estimator, latest_training_job) := estimator_job in
  cell_11 sagemaker_session latest_training_job ;;;
  cell_13 ;;;
  predictor <- cell_15 chainer_estimator latest_training_job ;;;
  cell_17 predictor ;;;
  cell_19 predictor file_paths ;;;
  cell_21 chainer_estimator latest_training_job.

Definition start (m : Fs.FS) (c : W) : World W := mkWorld m c [] [].

Definition run (m : Fs.FS) (c : W) : Result unit * World W := notebook (start m c).

End Notebook.

(* ================================================================== *)
(** ** The chain of externally visible steps                           *)
(* ================================================================== *)







(* ================================================================== *)
(** ** The loops in closed form                                        *)
(* ================================================================== *)

(** What [n] turns of the loop of cell 3 print, and how they end: with
    the file after them, or with the error of the first [readline] that
    raised. *)
Fixpoint lines_read (n : nat) (f : TextIOWrapper) : list string :=
  match n with
  | O => []
  | S n' =>
      match readline f with
      | Ok (line, f') => (line +:+ LF) :: lines_read n' f'
      | Raise _ => []
      end
  end.

Fixpoint after_read (n : nat) (f : TextIOWrapper) : Result TextIOWrapper :=
  match n with
  | O => Ok f
  | S n' =>
      match readline f with
      | Ok (_, f') => after_read n' f'
      | Raise e => Raise e
      end
  end.

(** What the printing loop prints, and how it ends: at the first row that
    is not a triple it raises. *)
Fixpoint printed (predictions : list (list string)) : list string :=
  match predictions with
  | [a; b; c] :: rest => (format_prediction a b c +:+ LF) :: printed rest
  | _ => []
  end.

Fixpoint unpack_all (predictions : list (list string)) : Result unit :=
  match predictions with
  | [] => Ok tt
  | [_; _; _] :: rest => unpack_all rest
  | _ :: _ => Raise (ValueError "unpack")
  end.

(* ================================================================== *)
(** ** Properties of traces and of the file system                     *)
(* ================================================================== *)








(** Two calls in a row that are the same call with the same arguments. *)
Fixpoint repeats (P : Call → Prop) (t : list Event) : Prop :=
  match t with
  | [] => False
  | ev :: t' =>
      match t' with
      | [] => False
      | ev' :: _ => (P ev.1 ∧ ev.1 = ev'.1) ∨ repeats P t'
      end
  end.

Definition is_get_stsa_dataset (c : Call) : Prop :=
  match c with call_get_stsa_dataset _ => True | _ => False end.

Definition is_predict (c : Call) : Prop :=
  match c with call_predict _ => True | _ => False end.






(** A binary label. *)
Definition binary (label : Label) : Prop := label = 0 ∨ label = 1.

Definition tmp_data : Fs.Path := ["/"; "tmp"; "data"].

(** Outside /tmp/data the file system [g] is what [m0] was, and /tmp is a
    directory. *)
Definition outside_unchanged (m0 g : Fs.FS) : Prop :=
  Fs.node_at g ["/"; "tmp"] = Some Fs.Dir
  ∧ ∀ q, ¬ tmp_data `prefix_of` q → g !! q = m0 !! q.

Definition has_tmp_data (g : Fs.FS) : Prop := Fs.node_at g tmp_data = Some Fs.Dir.

(** The size of some lines, as [readlines] counts it. *)
Definition total_size (lines : list string) : Z :=
  foldr (fun line n => Z.of_nat (Py.len line) + n) 0 lines.

(** What cell 19 sends to the endpoint for a test file of this content. *)
Definition lines_of (content : string) : TextFile :=
  Py.splitlines_keepends (Py.universal_newlines content).

Definition payload (line : string) : string := Py.strip (Py.slice_from_1 line).

Definition sent_to_endpoint (content : string) : list string :=
  map payload (readlines 2000 (lines_of content)).1.




(** The endpoint answers a given request the same way whatever state the
    vendor's side is in. *)
Definition deterministic_on {W : Type} (lib : External W)
           (predictor : Predictor) (data : list string) : Prop :=
  ∀ m m' c c',
    (Predictor_predict lib predictor data m c).1
    = (Predictor_predict lib predictor data m' c').1.

(* ================================================================== *)
(** ** dataset.py                                                      *)
(* ================================================================== *)

Module Dataset.

Section Model.

(** How words are counted and numbered is the framework's business. *)
Variable make_vocab : list (list string) -> Vocab.
Variable make_array : Vocab -> list string -> Sentence.

(** Modelled from the spec: dataset.py is not under src/. The label of a
    sentence is binary; cell 2 gives its two values, 1 for a positive and
    0 for a negative sentiment. *)
Definition read_label (c : ascii) : Result Label :=
  if Ascii.eqb c "0" then Ok 0
  else if Ascii.eqb c "1" then Ok 1
  else Raise (ValueError "label").

(** Modelled from the spec: dataset.py is not under src/. A sentence is
    the words of its text. *)
Definition words (text : string) : list string :=
  List.filter Fs.nonempty (Py.split " " (Py.strip text)).

(** Modelled from the spec: dataset.py is not under src/. The files of
    the labeled dataset hold one sentence per line, the label first
    (cells 3 and 19). *)
Definition read_line (line : string) : Result (list string * Label) :=
  match line with
  | EmptyString => Raise (ValueError "line")
  | String c text =>
      match read_label c with
      | Ok label => Ok (words text, label)
      | Raise e => Raise e
      end
  end.

(** Modelled from the spec: dataset.py is not under src/. *)
Fixpoint read_lines (lines : list string) : Result (list (list string * Label)) :=
  match lines with
  | [] => Ok []
  | line :: rest =>
      match read_line line with
      | Raise e => Raise e
      | Ok x =>
          match read_lines rest with
          | Ok xs => Ok (x :: xs)
          | Raise e => Raise e
          end
      end
  end.

(** Modelled from the spec: dataset.py is not under src/. *)
Definition read_dataset (path : string) (m : Fs.FS) : Result (list (list string * Label)) :=
  match Fs.read_file path m with
  | Ok content => read_lines (Py.splitlines_keepends (Py.universal_newlines content))
  | Raise e => Raise e
  end.

(** Modelled from the spec: dataset.py is not under src/. The dataset
    "converted to arrays": each sentence through the vocabulary mapping,
    each label as it is. *)
Definition transform_to_array (vocab : Vocab) (ds : list (list string * Label)) : Dataset :=
  map (fun x => (make_array vocab x.1, x.2)) ds.

(** Modelled from the spec: dataset.py is not under src/. The data model
    of the specification: "a labeled-sentence dataset (sentence, binary
    label, vocabulary mapping)", for the training and for the test file. *)
Definition get_stsa_dataset (file_paths : list string) (m : Fs.FS)
  : Result (Dataset * Dataset * Vocab) :=
  match file_paths with
  | train_path :: test_path :: _ =>
      match read_dataset train_path m with
      | Raise e => Raise e
      | Ok train =>
          match read_dataset test_path m with
          | Raise e => Raise e
          | Ok test =>
              let vocab := make_vocab (map fst train) in
              Ok (transform_to_array vocab train, transform_to_array vocab test, vocab)
          end
      end
  | _ => Raise IndexError
  end.

End Model.

End Dataset.

(* ================================================================== *)
(** ** Cell 6: the training script and its environment                 *)
(* ================================================================== *)

Module TrainingScript.

Inductive ArgType : Type := type_int | type_float | type_str.

Inductive ArgDefault : Type :=
| Literal (v : string)
| Environ (key : string).

Record Argument : Type := {
  flag : string;
  type : ArgType;
  default : ArgDefault
}.

(** The [parser.add_argument] lines of the script, in their order. *)
Definition arguments : list Argument :=
  [ {| flag := "--epochs"; type := type_int; default := Literal "30" |};
    {| flag := "--batch-size"; type := type_int; default := Literal "64" |};
    {| flag := "--dropout"; type := type_float; default := Literal "0.4" |};
    {| flag := "--num-layers"; type := type_int; default := Literal "1" |};
    {| flag := "--num-units"; type := type_int; default := Literal "300" |};
    {| flag := "--model-type"; type := type_str; default := Literal "rnn" |};
    {| flag := "--output-data-dir"; type := type_str; default := Environ "SM_OUTPUT_DATA_DIR" |};
    {| flag := "--model-dir"; type := type_str; default := Environ "SM_MODEL_DIR" |};
    {| flag := "--train"; type := type_str; default := Environ "SM_CHANNEL_TRAIN" |};
    {| flag := "--test"; type := type_str; default := Environ "SM_CHANNEL_TEST" |};
    {| flag := "--vocab"; type := type_str; default := Environ "SM_CHANNEL_VOCAB" |} ].

Definition Namespace : Type := list (string * string).

Fixpoint get (key : string) (l : list (string * string)) : option string :=
  match l with
  | [] => None
  | (k, v) :: l' => if String.eqb k key then Some v else get key l'
  end.

Fixpoint put (key value : string) (l : list (string * string)) : list (string * string) :=
  match l with
  | [] => [(key, value)]
  | (k, v) :: l' => if String.eqb k key then (k, value) :: l' else (k, v) :: put key value l'
  end.

(** [os.environ[key]] *)
Definition os_environ (environ : list (string * string)) (key : string) : Result string :=
  match get key environ with
  | Some v => Ok v
  | None => Raise (KeyError key)
  end.

(** The attribute an option is stored under: [--batch-size] is
    [args.batch_size]. *)
Definition dest (flag : string) : string := Py.replace "-" "_" (Py.drop 2 flag).

(** Building the parser evaluates every default, so a missing variable
    raises [KeyError] before anything is parsed. *)
Fixpoint defaults (environ : list (string * string)) (args : list Argument) : Result Namespace :=
  match args with
  | [] => Ok []
  | a :: args' =>
      let value :=
        match default a with
        | Literal v => Ok v
        | Environ key => os_environ environ key
        end in
      match value with
      | Raise e => Raise e
      | Ok v =>
          match defaults environ args' with
          | Ok ns => Ok ((dest (flag a), v) :: ns)
          | Raise e => Raise e
          end
      end
  end.

Definition isdigit (c : ascii) : bool :=
  let n := nat_of_ascii c in (48 <=? n)%nat && (n <=? 57)%nat.

Fixpoint all_digits (s : string) : bool :=
  match s with
  | EmptyString => true
  | String c s' => isdigit c && all_digits s'
  end.

(** [type(value)] accepts the word. For [int]: an optional sign and
    digits. The syntax of [float] is not modelled: every word passes. *)
Definition accepts (t : ArgType) (value : string) : bool :=
  match t with
  | type_int =>
      match value with
      | EmptyString => false
      | String c rest =>
          if Ascii.eqb c "-" || Ascii.eqb c "+"
          then Fs.nonempty rest && all_digits rest
          else all_digits value
      end
  | type_float | type_str => true
  end.

Definition find_argument (word : string) : option Argument :=
  List.find (fun a => String.eqb (flag a) word) arguments.

(** [parser.parse_known_args()]: a known option takes the next word as
    its value, what is not known is left aside. *)
Fixpoint parse (argv : list string) (ns : Namespace) : Result Namespace :=
  match argv with
  | [] => Ok ns
  | word :: rest =>
      match find_argument word with
      | None => parse rest ns
      | Some a =>
          match rest with
          | [] => Raise (ValueError word)
          | value :: rest' =>
              if accepts (type a) value
              then parse rest' (put (dest (flag a)) value ns)
              else Raise (ValueError word)
          end
      end
  end.

Definition parse_known_args (environ : list (string * string)) (argv : list string)
  : Result Namespace :=
  match defaults environ arguments with
  | Ok ns => parse argv ns
  | Raise e => Raise e
  end.

(** The environment variables the defaults read, and the channel ones
    among them. *)
Definition variables_read : list string :=
  omap (fun a => match default a with Environ key => Some key | Literal _ => None end)
       arguments.

Definition channel_variables_read : list string :=
  List.filter (Py.startswith "SM_CHANNEL_") variables_read.

End TrainingScript.

(** The container's side of the contract, as cell 6 words it. *)
Module Container.

(** [SM_CHANNEL_[channel_name]] *)
Definition channel_variable (channel_name : string) : string :=
  "SM_CHANNEL_" +:+ Py.upper channel_name.

(** Where the container puts things. *)
Record Layout : Type := {
  model_dir : string;
  output_dir : string;
  output_data_dir : string;
  num_gpus : string;
  channel_dir : string -> string
}.

(** The environment of the training script for the channels given to
    [fit]. *)
Definition environ (l : Layout) (channels : list string) : list (string * string) :=
  [ ("SM_MODEL_DIR", model_dir l);
    ("SM_NUM_GPUS", num_gpus l);
    ("SM_OUTPUT_DIR", output_dir l);
    ("SM_OUTPUT_DATA_DIR", output_data_dir l) ]
  ++ map (fun channel_name => (channel_variable channel_name, channel_dir l channel_name))
         channels.

(** Hyperparameters are passed to the script as arguments. *)
Definition argv (hyperparameters : list (string * Z)) : list string :=
  flat_map (fun kv => ["--" +:+ kv.1; NilEmpty.string_of_int (Z.to_int kv.2)])
           hyperparameters.

End Container.

(* ================================================================== *)
(** ** Cell 6: the functions of a hosting script                       *)
(* ================================================================== *)

Module Hosting.

Section Contract.

(** The model, the arrays it works on, its [__call__] method and the NPY
    format are the framework's. *)
Context {Model Array : Type}.
Variable model_call : Model -> Array -> Array.
Variable npy_loads : string -> Result Array.
Variable npy_dumps : Array -> string.

(** A hosting script implements some of the four functions. *)
Record Script : Type := {
  model_fn : option (string -> Result Model);
  input_fn : option (string -> string -> Result Array);
  predict_fn : option (Array -> Model -> Result Array);
  output_fn : option (Array -> string -> Result string)
}.

(** "These default implementations can deserialize a NumPy array,
    invoking the model's [__call__] method on the input data, and
    serialize a NumPy array back to the client." *)
Definition default_input_fn (input_data content_type : string) : Result Array :=
  npy_loads input_data.

Definition default_predict_fn (input_data : Array) (model : Model) : Result Array :=
  Ok (model_call model input_data).

Definition default_output_fn (prediction : Array) (accept : string) : Result string :=
  Ok (npy_dumps prediction).

(** The functions the container serves with. *)
Record Handlers : Type := {
  load : string -> Result Model;
  deserialize : string -> string -> Result Array;
  infer : Array -> Model -> Result Array;
  serialize : Array -> string -> Result string
}.

(** "[model_fn] is always required, but default implementations exist for
    the remaining functions." *)
Definition handlers (s : Script) : Result Handlers :=
  match model_fn s with
  | None => Raise (KeyError "model_fn")
  | Some f =>
      Ok {| load := f;
            deserialize := default default_input_fn (input_fn s);
            infer := default default_predict_fn (predict_fn s);
            serialize := default default_output_fn (output_fn s) |}
  end.

(** The script can be hosted. *)
Definition hostable (s : Script) : Prop := ∃ h, handlers s = Ok h.

(** One prediction request: the model is loaded from [model_dir], the
    body deserialized, the inference made and serialized. *)
Definition invoke (s : Script) (model_dir body content_type accept : string)
  : Result string :=
  match handlers s with
  | Raise e => Raise e
  | Ok h =>
      match load h model_dir with
      | Raise e => Raise e
      | Ok model =>
          match deserialize h body content_type with
          | Raise e => Raise e
          | Ok input_data =>
              match infer h input_data model with
              | Raise e => Raise e
              | Ok prediction => serialize h prediction accept
              end
          end
      end
  end.

(** The four functions of the contract, and whether a script implements
    one. *)
Inductive Function : Type := fn_model | fn_input | fn_predict | fn_output.

Definition implements (s : Script) (f : Function) : Prop :=
  match f with
  | fn_model => is_Some (model_fn s)
  | fn_input => is_Some (input_fn s)
  | fn_predict => is_Some (predict_fn s)
  | fn_output => is_Some (output_fn s)
  end.

(** A function is required when no script can be hosted without it. *)
Definition required (f : Function) : Prop :=
  ∀ s : Script, hostable s → implements s f.

End Contract.

End Hosting.

(* ================================================================== *)
(** ** An environment to run the notebook in                           *)
(* ================================================================== *)

Module Demo.

(** Words are numbered from 2 in the order they first appear; a word that
    is not in the vocabulary is 1. *)
Definition make_vocab (sentences : list (list string)) : Vocab :=
  imap (fun i word => (word, Z.of_nat i + 2)) (remove_dups (concat sentences)).

Definition make_array (vocab : Vocab) (sentence : list string) : Sentence :=
  map (fun word => default 1 (snd <$> List.find (fun kv => String.eqb kv.1 word) vocab))
      sentence.

Definition train_text : string :=
  "1 a stirring , funny and finally transporting film" +:+ LF
  +:+ "0 a dull , long and finally tiring film" +:+ LF.

(** A test file of a hundred lines of twenty-nine characters each. *)
Definition test_line : string := "0 no movement , no yuks here" +:+ LF.

Definition test_text : string := String.concat EmptyString (replicate 100 test_line).

(** The vendor's state is the number of requests the endpoint has
    answered: it answers the same request differently on odd and on even
    turns. *)
Definition endpoint (served : nat) (data : list string) : list (list string) :=
  map (fun sentence => [sentence; if Nat.even served then "1" else "0"; "0.5"]) data.

(** The codec of a C locale: bytes above 127 do not decode. *)
Fixpoint is_ascii (s : string) : bool :=
  match s with
  | EmptyString => true
  | String c s' => (nat_of_ascii c <? 128)%nat && is_ascii s'
  end.

Definition ascii_decode (content : string) : option string :=
  if is_ascii content then Some content else None.

Definition lib : External nat := {|
  sagemaker_Session := fun _ c => (Ok "session", c);
  sagemaker_get_execution_role := fun _ c => (Ok "arn:aws:iam::000000000000:role/notebook", c);
  Session_upload_data := fun _ _ key_prefix _ c => (Ok ("s3://bucket/" +:+ key_prefix), c);
  Session_describe_training_job := fun _ job _ c =>
    (Ok ("s3://bucket/" +:+ job +:+ "/output/model.tar.gz"), c);
  Chainer_fit := fun _ _ _ c => (Ok "sagemaker-chainer-job", c);
  Chainer_deploy := fun _ job _ _ _ c => (Ok job, c);
  Chainer_delete_endpoint := fun _ _ _ c => (Ok tt, c);
  Predictor_predict := fun _ data _ c => (Ok (endpoint c data), S c);
  dataset_download_dataset := fun name m c =>
    (Ok [name +:+ ".train"; name +:+ ".test"],
     <[Fs.parse (name +:+ ".test") := Fs.File test_text]>
       (<[Fs.parse (name +:+ ".train") := Fs.File train_text]> m),
     c);
  dataset_get_stsa_dataset := fun file_paths m c =>
    (Dataset.get_stsa_dataset make_vocab make_array file_paths m, c);
  s3_util_retrieve_output_from_s3 := fun _ output_dir m c =>
    (Ok tt,
     <[Fs.parse (output_dir +:+ "/loss.png") := Fs.File "png"]>
       (<[Fs.parse (output_dir +:+ "/accuracy.png") := Fs.File "png"]> m),
     c);
  np_npz_bytes := fun _ => Ok "npz";
  np_npy_bytes := fun _ => Ok "npy";
  locale_decode := ascii_decode;
  locale_lines_before_error := fun _ => []
|}.

(** The same libraries, but the training job fails. *)
Definition lib_failing_fit : External nat := {|
  sagemaker_Session := sagemaker_Session lib;
  sagemaker_get_execution_role := sagemaker_get_execution_role lib;
  Session_upload_data := Session_upload_data lib;
  Session_describe_training_job := Session_describe_training_job lib;
  Chainer_fit := fun _ _ _ c => (Raise (VendorError "training job failed"), c);
  Chainer_deploy := Chainer_deploy lib;
  Chainer_delete_endpoint := Chainer_delete_endpoint lib;
  Predictor_predict := Predictor_predict lib;
  dataset_download_dataset := dataset_download_dataset lib;
  dataset_get_stsa_dataset := dataset_get_stsa_dataset lib;
  s3_util_retrieve_output_from_s3 := s3_util_retrieve_output_from_s3 lib;
  np_npz_bytes := np_npz_bytes lib;
  np_npy_bytes := np_npy_bytes lib;
  locale_decode := locale_decode lib;
  locale_lines_before_error := locale_lines_before_error lib
|}.

(** The same libraries, but the upload of the test set fails. *)
Definition lib_failing_upload : External nat := {|
  sagemaker_Session := sagemaker_Session lib;
  sagemaker_get_execution_role := sagemaker_get_execution_role lib;
  Session_upload_data := fun session path key_prefix m c =>
    if String.eqb key_prefix "notebook/chainer_sentiment/test"
    then (Raise (VendorError "upload failed"), c)
    else Session_upload_data lib session path key_prefix m c;
  Session_describe_training_job := Session_describe_training_job lib;
  Chainer_fit := Chainer_fit lib;
  Chainer_deploy := Chainer_deploy lib;
  Chainer_delete_endpoint := Chainer_delete_endpoint lib;
  Predictor_predict := Predictor_predict lib;
  dataset_download_dataset := dataset_download_dataset lib;
  dataset_get_stsa_dataset := dataset_get_stsa_dataset lib;
  s3_util_retrieve_output_from_s3 := s3_util_retrieve_output_from_s3 lib;
  np_npz_bytes := np_npz_bytes lib;
  np_npy_bytes := np_npy_bytes lib;
  locale_decode := locale_decode lib;
  locale_lines_before_error := locale_lines_before_error lib
|}.

(** A machine with an empty /tmp. *)
Definition disk : Fs.FS := {[ ["/"; "tmp"] := Fs.Dir ]}.

(** The same machine once the dataset is there. *)
Definition downloaded : Fs.FS :=
  <[ ["stsa.binary.test"] := Fs.File test_text ]>
    (<[ ["stsa.binary.train"] := Fs.File train_text ]> disk).

(** The names of the calls of a trace, to read a run at a glance. *)
Definition name (c : Call) : string :=
  match c with
  | call_Session => "Session"
  | call_get_execution_role => "get_execution_role"
  | call_download_dataset _ => "download_dataset"
  | call_get_stsa_dataset _ => "get_stsa_dataset"
  | call_open _ => "open"
  | call_makedirs _ => "makedirs"
  | call_savez _ _ => "savez"
  | call_save _ _ => "save"
  | call_upload_data _ _ => "upload_data"
  | call_rmtree _ => "rmtree"
  | call_shell _ => "shell"
  | call_fit _ _ => "fit"
  | call_describe_training_job _ => "describe_training_job"
  | call_retrieve_output_from_s3 _ _ => "retrieve_output_from_s3"
  | call_Image _ _ _ => "Image"
  | call_display _ => "display"
  | call_deploy _ _ => "deploy"
  | call_predict _ => "predict"
  | call_delete_endpoint => "delete_endpoint"
  end.

Definition names (t : list Event) : list string := map (fun ev => name ev.1) t.

(** A hosting script over lists of numbers that implements [model_fn]
    only; the model adds a constant, and an array travels as the text of
    its length. *)
Definition model_call (model : Z) (input_data : list Z) : list Z :=
  map (Z.add model) input_data.

Definition npy_loads (body : string) : Result (list Z) :=
  Ok (replicate (String.length body) 0).

Definition npy_dumps (arr : list Z) : string :=
  NilEmpty.string_of_uint (Nat.to_uint (length arr)).

Definition script_with_model_fn_only : @Hosting.Script Z (list Z) :=
  {| Hosting.model_fn := Some (fun _ => Ok 1);
     Hosting.input_fn := None;
     Hosting.predict_fn := None;
     Hosting.output_fn := None |}.

End Demo.

(* ================================================================== *)
(** ** Further notions used to state what the cells do                 *)
(* ================================================================== *)

(** [s.find(sub)], with [None] for Python's -1. *)
Fixpoint find_from (i : nat) (sub s : string) : option nat :=
  if Py.startswith sub s then Some i
  else match s with
       | EmptyString => None
       | String _ s' => find_from (S i) sub s'
       end.

Definition find (sub s : string) : option nat := find_from 0 sub s.

(** What the printing loop of cells 17 and 19 prints for one row. *)
Definition format_row (row : list string) : string :=
  match row with
  | [sentence; prediction; score] => format_prediction sentence prediction score
  | _ => EmptyString
  end.

(** The endpoint has been created, and deleted, in a trace. *)
Definition endpoint_deployed (t : list Event) : bool :=
  existsb (fun ev => match ev with
                     | (call_deploy _ _, Returned _) => true
                     | _ => false
                     end) t.

Definition endpoint_deleted (t : list Event) : bool :=
  existsb (fun ev => match ev with
                     | (call_delete_endpoint, Returned _) => true
                     | _ => false
                     end) t.

(** Every call to the endpoint, [predict] or [delete_endpoint], whether
    it returns or raises, comes after [deploy] has returned. *)
Fixpoint only_after_deploy (deployed : bool) (t : list Event) : Prop :=
  match t with
  | [] => True
  | (call_deploy _ _, Returned _) :: t' => only_after_deploy true t'
  | (call_predict _, _) :: t' | (call_delete_endpoint, _) :: t' =>
      deployed = true ∧ only_after_deploy deployed t'
  | _ :: t' => only_after_deploy deployed t'
  end.




(** More of the example environment. *)
Module Demo2.

(** The endpoint fails on every request. *)
Definition lib_failing_predict : External nat := {|
  sagemaker_Session := sagemaker_Session Demo.lib;
  sagemaker_get_execution_role := sagemaker_get_execution_role Demo.lib;
  Session_upload_data := Session_upload_data Demo.lib;
  Session_describe_training_job := Session_describe_training_job Demo.lib;
  Chainer_fit := Chainer_fit Demo.lib;
  Chainer_deploy := Chainer_deploy Demo.lib;
  Chainer_delete_endpoint := Chainer_delete_endpoint Demo.lib;
  Predictor_predict := fun _ _ _ c => (Raise (VendorError "endpoint failed"), c);
  dataset_download_dataset := dataset_download_dataset Demo.lib;
  dataset_get_stsa_dataset := dataset_get_stsa_dataset Demo.lib;
  s3_util_retrieve_output_from_s3 := s3_util_retrieve_output_from_s3 Demo.lib;
  np_npz_bytes := np_npz_bytes Demo.lib;
  np_npy_bytes := np_npy_bytes Demo.lib;
  locale_decode := locale_decode Demo.lib;
  locale_lines_before_error := locale_lines_before_error Demo.lib
|}.

(** The same libraries, but the model artifacts are in an archive of
    another name. *)
Definition lib_other_archive : External nat := {|
  sagemaker_Session := sagemaker_Session Demo.lib;
  sagemaker_get_execution_role := sagemaker_get_execution_role Demo.lib;
  Session_upload_data := Session_upload_data Demo.lib;
  Session_describe_training_job := fun _ job _ c =>
    (Ok ("s3://bucket/" +:+ job +:+ "/output/model.tgz"), c);
  Chainer_fit := Chainer_fit Demo.lib;
  Chainer_deploy := Chainer_deploy Demo.lib;
  Chainer_delete_endpoint := Chainer_delete_endpoint Demo.lib;
  Predictor_predict := Predictor_predict Demo.lib;
  dataset_download_dataset := dataset_download_dataset Demo.lib;
  dataset_get_stsa_dataset := dataset_get_stsa_dataset Demo.lib;
  s3_util_retrieve_output_from_s3 := s3_util_retrieve_output_from_s3 Demo.lib;
  np_npz_bytes := np_npz_bytes Demo.lib;
  np_npy_bytes := np_npy_bytes Demo.lib;
  locale_decode := locale_decode Demo.lib;
  locale_lines_before_error := locale_lines_before_error Demo.lib
|}.

(** An endpoint that answers alike until its third request, and
    otherwise from then on. *)
Definition lib_settling : External nat := {|
  sagemaker_Session := sagemaker_Session Demo.lib;
  sagemaker_get_execution_role := sagemaker_get_execution_role Demo.lib;
  Session_upload_data := Session_upload_data Demo.lib;
  Session_describe_training_job := Session_describe_training_job Demo.lib;
  Chainer_fit := Chainer_fit Demo.lib;
  Chainer_deploy := Chainer_deploy Demo.lib;
  Chainer_delete_endpoint := Chainer_delete_endpoint Demo.lib;
  Predictor_predict := fun _ data _ c =>
    (Ok (Demo.endpoint (if (c <? 3)%nat then 0 else 1) data), S c);
  dataset_download_dataset := dataset_download_dataset Demo.lib;
  dataset_get_stsa_dataset := dataset_get_stsa_dataset Demo.lib;
  s3_util_retrieve_output_from_s3 := s3_util_retrieve_output_from_s3 Demo.lib;
  np_npz_bytes := np_npz_bytes Demo.lib;
  np_npy_bytes := np_npy_bytes Demo.lib;
  locale_decode := locale_decode Demo.lib;
  locale_lines_before_error := locale_lines_before_error Demo.lib
|}.

(** A codec of two bytes for a character: a zero byte, then the
    character. *)
Fixpoint wide_decode (content : string) : option string :=
  match content with
  | EmptyString => Some EmptyString
  | String high (String low rest) =>
      if Ascii.eqb high "000"%char
      then match wide_decode rest with
           | Some text => Some (String low text)
           | None => None
           end
      else None
  | String _ EmptyString => None
  end.

Fixpoint wide_encode (text : string) : string :=
  match text with
  | EmptyString => EmptyString
  | String c rest => String "000"%char (String c (wide_encode rest))
  end.

Definition lib_wide : External nat := {|
  sagemaker_Session := sagemaker_Session Demo.lib;
  sagemaker_get_execution_role := sagemaker_get_execution_role Demo.lib;
  Session_upload_data := Session_upload_data Demo.lib;
  Session_describe_training_job := Session_describe_training_job Demo.lib;
  Chainer_fit := Chainer_fit Demo.lib;
  Chainer_deploy := Chainer_deploy Demo.lib;
  Chainer_delete_endpoint := Chainer_delete_endpoint Demo.lib;
  Predictor_predict := Predictor_predict Demo.lib;
  dataset_download_dataset := dataset_download_dataset Demo.lib;
  dataset_get_stsa_dataset := dataset_get_stsa_dataset Demo.lib;
  s3_util_retrieve_output_from_s3 := s3_util_retrieve_output_from_s3 Demo.lib;
  np_npz_bytes := np_npz_bytes Demo.lib;
  np_npy_bytes := np_npy_bytes Demo.lib;
  locale_decode := wide_decode;
  locale_lines_before_error := fun _ => []
|}.

(** A machine whose test file is the example one in that encoding. *)
Definition wide : Fs.FS :=
  <[ ["stsa.binary.test"] := Fs.File (wide_encode Demo.test_text) ]> Demo.downloaded.

(** A machine whose test file holds a byte that is no ASCII. *)
Definition undecodable : Fs.FS :=
  <[ ["stsa.binary.test"] := Fs.File (String "233"%char Demo.test_line) ]> Demo.downloaded.

(** A test file whose first line has 2102 characters. *)
Definition long_line : string :=
  "0 " +:+ String.concat EmptyString (replicate 700 "no ") +:+ LF.

Definition long_text : string := long_line +:+ "1 yes" +:+ LF.

(** Where a training container puts things. *)
Definition layout : Container.Layout :=
  {| Container.model_dir := "/opt/ml/model";
     Container.output_dir := "/opt/ml/output";
     Container.output_data_dir := "/opt/ml/output/data";
     Container.num_gpus := "1";
     Container.channel_dir := fun channel_name => "/opt/ml/input/data/" +:+ channel_name |}.

(** A machine where an earlier job left /tmp/data/train_sentiment and a
    file of its own under /tmp/data. *)
Definition used_disk : Fs.FS :=
  <[ ["/"; "tmp"; "data"; "notes.txt"] := Fs.File "keep" ]>
    (<[ ["/"; "tmp"; "data"; "train_sentiment"] := Fs.Dir ]>
       (<[ ["/"; "tmp"; "data"] := Fs.Dir ]> Demo.disk)).

(** A hosting script with [model_fn] alone over arrays that travel as
    their own text; the model puts its name before the input. *)
Definition echo_call (model input_data : string) : string := model +:+ input_data.
Definition echo_loads (body : string) : Result string := Ok body.
Definition echo_dumps (arr : string) : string := arr.
Definition echo_script : @Hosting.Script string string :=
  {| Hosting.model_fn := Some (fun model_dir => Ok model_dir);
     Hosting.input_fn := None;
     Hosting.predict_fn := None;
     Hosting.output_fn := None |}.

End Demo2.

(** The environment variables the defaults of some arguments read. *)
Definition environ_keys (args : list TrainingScript.Argument) : list string :=
  omap (fun a => match TrainingScript.default a with
                 | TrainingScript.Environ key => Some key
                 | TrainingScript.Literal _ => None
                 end) args.
Section Loops.

Context {W : Type} (lib : External W).

Lemma for_readline_print_run n f (w : World W) :
  for_readline_print n f w =
  (after_read n f, mkWorld (fs w) (cloud w) (trace w) (stdout w ++ lines_read n f)).
Proof.
  revert f w. induction n as [|n IH]; intros f w.
  - simpl. rewrite app_nil_r. by destruct w.
  - simpl. unfold nb_bind, nb_lift.
    destruct (readline f) as [[line f']|e].
    + unfold print. simpl. rewrite IH. simpl. by rewrite <- app_assoc.
    + rewrite app_nil_r. by destruct w.
Qed.

Lemma for_print_predictions_run ps (w : World W) :
  for_print_predictions ps w =
  (unpack_all ps, mkWorld (fs w) (cloud w) (trace w) (stdout w ++ printed ps)).
Proof.
  revert w. induction ps as [|row ps IH]; intros w.
  - simpl. rewrite app_nil_r. by destruct w.
  - destruct row as [|a [|b [|c [|d row]]]]; simpl;
      unfold nb_bind, unpack3, nb_raise, nb_ret;
      try (rewrite app_nil_r; by destruct w).
    unfold print. rewrite IH. simpl. by rewrite <- app_assoc.
Qed.








End Loops.


(** Running the notebook symbolically: the definitions are unfolded down
    to the library calls, and each call is split into its two outcomes in
    the order the calls are made. *)
Ltac nb_unfold :=
  cbv beta delta [run notebook start cell_1 cell_3 cell_5 cell_7 cell_9 cell_11 cell_13
     cell_15 cell_17 cell_19 cell_21 nb_bind nb_ret nb_raise try_finally call call_fs
     fs_update fs_read note subscript open_r with_open makedirs rmtree np_savez np_save
     upload_data predict Image log nb_lift].

Ltac nb_norm :=
  cbn [fs cloud trace stdout outcome fst snd app VUnit];
  rewrite ?for_readline_print_run, ?for_print_predictions_run;
  cbn [fs cloud trace stdout outcome fst snd app VUnit].

Ltac nb_step :=
  match goal with
  | |- context [match ?x with _ => _ end] =>
      lazymatch x with
      | context [match _ with _ => _ end] => fail
      | _ => destruct x eqn:?
      end
  end; nb_norm.

Ltac nb_exec := nb_unfold; nb_norm; repeat nb_step.

(** The same for a goal about [run lib m c]: one subgoal per way the run
    can go, with its result and its final world in place. *)
Ltac nb_leaf :=
  cbn beta; cbn [fst snd trace fs cloud stdout];
  repeat match goal with
         | |- context [match ?x with _ => _ end] => is_var x; destruct x
         | |- context [outcome _ ?x] => is_var x; destruct x
         end;
  cbn [outcome];
  repeat match goal with
         | |- context [Fs.join ?a ?b] =>
             let v := eval vm_compute in (Fs.join a b) in
             change (Fs.join a b) with v
         end.

Ltac nb_run :=
  match goal with
  | |- context [run ?lib ?m ?c] =>
      pattern (run lib m c);
      match goal with
      | |- ?P _ =>
          let Q := fresh "Q" in
          set (Q := P); nb_exec; subst Q; nb_leaf
      end
  end.

(** The same for a goal about one cell, or any other term [t]. *)
Ltac nb_cell t :=
  pattern t;
  match goal with
  | |- ?P _ => let Q := fresh "Q" in set (Q := P); nb_exec; subst Q; nb_leaf
  end.

(* ================================================================== *)
(** ** Strings                                                         *)
(* ================================================================== *)

Lemma string_app_cons c (a b : string) : String c a +:+ b = String c (a +:+ b).
Proof. reflexivity. Qed.

Lemma string_app_nil_r (s : string) : s +:+ EmptyString = s.
Proof. induction s as [|c s IH]; [done|]. by rewrite string_app_cons, IH. Qed.

Lemma string_app_length (a b : string) :
  String.length (a +:+ b) = (String.length a + String.length b)%nat.
Proof. induction a as [|x a IH]; [done|]. rewrite string_app_cons. simpl in *. lia. Qed.

Lemma startswith_app (p s : string) : Py.startswith p (p +:+ s) = true.
Proof.
  induction p as [|c p IH]; [done|]. rewrite string_app_cons. simpl.
  by rewrite Ascii.eqb_refl.
Qed.

Lemma drop_app (p s : string) : Py.drop (String.length p) (p +:+ s) = s.
Proof. induction p as [|c p IH]; [done|]. rewrite string_app_cons. by simpl. Qed.













(* ================================================================== *)
(** ** Facts about the file system                                     *)
(* ================================================================== *)

Module FsFacts.
Import Fs.

Lemma node_at_root m p : is_root p = true → node_at m p = Some Dir.
Proof. unfold node_at. by intros ->. Qed.

Lemma node_at_None m p : node_at m p = None → is_root p = false ∧ m !! p = None.
Proof. unfold node_at. destruct (is_root p); [done | by intros ->]. Qed.

Lemma node_at_insert_ne m p q n : p ≠ q → node_at (<[p := n]> m) q = node_at m q.
Proof. intros Hne. unfold node_at. destruct (is_root q); [done|]. by rewrite lookup_insert_ne. Qed.

Lemma mkdir_Ok p m m' :
  mkdir p m = Ok m' →
  node_at m p = None ∧ node_at m (parent p) = Some Dir ∧ m' = <[p := Dir]> m.
Proof.
  unfold mkdir. destruct (node_at m p); [done|].
  destruct (node_at m (parent p)) as [[|]|]; [|done|done].
  by intros [= <-].
Qed.

Lemma mkdir_keeps p m m' q n :
  mkdir p m = Ok m' → node_at m q = Some n → node_at m' q = Some n.
Proof.
  intros (Hp & _ & ->)%mkdir_Ok Hq.
  rewrite node_at_insert_ne; [done|]. intros ->. congruence.
Qed.

Lemma mkdir_changes p m m' q :
  mkdir p m = Ok m' → q ≠ p → m' !! q = m !! q.
Proof. intros (_ & _ & ->)%mkdir_Ok Hq. by rewrite lookup_insert_ne. Qed.

Lemma makedirs_rev_keeps rp m m' q n :
  makedirs_rev rp m = Ok m' → node_at m q = Some n → node_at m' q = Some n.
Proof.
  revert m m'. induction rp as [|c rhead IH]; intros m m' H Hq.
  - simpl in H. by eapply mkdir_keeps.
  - cbn [makedirs_rev] in H.
    destruct rhead as [|c' rhead']; [by eapply mkdir_keeps|].
    destruct (node_at m (rev (c' :: rhead'))) eqn:Hhead; [by eapply mkdir_keeps|].
    destruct (makedirs_rev (c' :: rhead') m) as [m1|e] eqn:Hrec.
    + eapply mkdir_keeps; [done|]. by eapply IH.
    + destruct e; try done. by eapply mkdir_keeps.
Qed.

Lemma makedirs_rev_changes rp m m' q :
  makedirs_rev rp m = Ok m' →
  m' !! q = m !! q ∨ (node_at m q = None ∧ q `prefix_of` rev rp).
Proof.
  revert m m'. induction rp as [|c rhead IH]; intros m m' H.
  - simpl in H. apply mkdir_Ok in H as (Hp & _ & _). by rewrite node_at_root in Hp.
  - assert (Hlast : ∀ m1, mkdir (rev (c :: rhead)) m1 = Ok m' →
               (m1 !! q = m !! q ∨ (node_at m q = None ∧ q `prefix_of` rev rhead)) →
               m' !! q = m !! q ∨ (node_at m q = None ∧ q `prefix_of` rev (c :: rhead))).
    { intros m1 Hmk Hm1. destruct (decide (q = rev (c :: rhead))) as [->|Hne].
      - destruct Hm1 as [Hm1|[Hn Hpre]].
        + apply mkdir_Ok in Hmk as (Hn & _ & _). right. split; [|done].
          apply node_at_None in Hn as [Hr Hn]. unfold node_at. rewrite Hr. congruence.
        + right. split; [done|]. done.
      - rewrite (mkdir_changes _ _ _ _ Hmk Hne).
        destruct Hm1 as [Hm1|[Hn Hpre]]; [by left|right]. split; [done|].
        simpl. by apply prefix_app_r. }
    cbn [makedirs_rev] in H.
    destruct rhead as [|c' rhead']; [apply (Hlast m H); by left|].
    destruct (node_at m (rev (c' :: rhead'))) eqn:Hhead; [apply (Hlast m H); by left|].
    destruct (makedirs_rev (c' :: rhead') m) as [m1|e] eqn:Hrec.
    + apply (Hlast m1 H). by apply IH.
    + destruct e; try done. apply (Hlast m H). by left.
Qed.

Lemma makedirs_rev_parent c rhead m m' :
  makedirs_rev (c :: rhead) m = Ok m' → node_at m' (rev rhead) = Some Dir.
Proof.
  assert (Hlast : ∀ m1, mkdir (rev (c :: rhead)) m1 = Ok m' → node_at m' (rev rhead) = Some Dir).
  { intros m1 Hmk. pose proof Hmk as (_ & Hpar & _)%mkdir_Ok.
    eapply mkdir_keeps; [done|]. simpl in Hpar. unfold parent in Hpar.
    by rewrite removelast_last in Hpar. }
  intros H. cbn [makedirs_rev] in H.
  destruct rhead as [|c' rhead']; [by apply (Hlast m)|].
  destruct (node_at m (rev (c' :: rhead'))) eqn:Hhead; [by apply (Hlast m)|].
  destruct (makedirs_rev (c' :: rhead') m) as [m1|e] eqn:Hrec; [by apply (Hlast m1)|].
  destruct e; try done. by apply (Hlast m).
Qed.

Lemma write_file_Ok path content m m' :
  write_file path content m = Ok m' →
  node_at m (parse path) ≠ Some Dir ∧ m' = <[parse path := File content]> m.
Proof.
  unfold write_file. intros H.
  destruct (node_at m (parse path)) as [[|]|] eqn:Hp; [done| |];
    (destruct (node_at m (parent (parse path))) as [[|]|]; [|done|done]);
    injection H as <-; done.
Qed.

Lemma write_file_keeps_dir path content m m' q :
  write_file path content m = Ok m' → node_at m q = Some Dir → node_at m' q = Some Dir.
Proof.
  intros [Hp ->]%write_file_Ok Hq. rewrite node_at_insert_ne; [done|]. by intros <-.
Qed.

Lemma write_file_changes path content m m' q :
  write_file path content m = Ok m' → q ≠ parse path → m' !! q = m !! q.
Proof. intros [_ ->]%write_file_Ok Hq. by rewrite lookup_insert_ne. Qed.

Lemma rmtree_Ok path m m' :
  rmtree path m = Ok m' → m' = filter (fun kv => ¬ parse path `prefix_of` kv.1) m.
Proof.
  unfold rmtree. destruct (node_at m (parse path)) as [[|]|]; [|done|done].
  by intros [= <-].
Qed.

Lemma rmtree_Raise path m e : rmtree path m = Raise e → node_at m (parse path) ≠ Some Dir.
Proof. unfold rmtree. destruct (node_at m (parse path)) as [[|]|]; done. Qed.

Lemma rmtree_gone path m m' q :
  rmtree path m = Ok m' → parse path `prefix_of` q → m' !! q = None.
Proof.
  intros ->%rmtree_Ok Hq. apply map_lookup_filter_None. right. intros x _ Hn. by apply Hn.
Qed.

Lemma rmtree_outside path m m' q :
  rmtree path m = Ok m' → ¬ parse path `prefix_of` q → m' !! q = m !! q.
Proof.
  intros ->%rmtree_Ok Hq. destruct (m !! q) as [x|] eqn:Hm.
  - apply map_lookup_filter_Some. done.
  - apply map_lookup_filter_None. by left.
Qed.

End FsFacts.

Import FsFacts.

Lemma prefix_of_leaf (q : Fs.Path) leaf :
  q `prefix_of` tmp_data ++ [leaf] → ¬ tmp_data `prefix_of` q →
  q = [] ∨ q = ["/"] ∨ q = ["/"; "tmp"].
Proof.
  intros [k Hk] Hn. unfold tmp_data in *. simpl in Hk.
  destruct q as [|a [|b [|c q]]]; simplify_eq/=; auto.
  exfalso. apply Hn. by eexists.
Qed.

Lemma makedirs_outside m0 g g' name leaf :
  Fs.parse name = tmp_data ++ [leaf] →
  outside_unchanged m0 g → Fs.makedirs name g = Ok g' → outside_unchanged m0 g'.
Proof.
  intros Hname [Htmp Hout] Hmk. unfold Fs.makedirs in Hmk. split.
  - by eapply makedirs_rev_keeps.
  - intros q Hq. rewrite <- (Hout q Hq).
    destruct (makedirs_rev_changes _ _ _ q Hmk) as [?|[Hnone Hpre]]; [done|].
    rewrite rev_involutive, Hname in Hpre.
    destruct (prefix_of_leaf _ _ Hpre Hq) as [->|[->| ->]]; try done.
    congruence.
Qed.

Lemma makedirs_has_tmp_data g g' name leaf :
  Fs.parse name = tmp_data ++ [leaf] → Fs.makedirs name g = Ok g' → has_tmp_data g'.
Proof.
  intros Hname Hmk. unfold Fs.makedirs in Hmk. rewrite Hname in Hmk.
  change (rev (tmp_data ++ [leaf])) with (leaf :: rev tmp_data) in Hmk.
  apply makedirs_rev_parent in Hmk. by rewrite rev_involutive in Hmk.
Qed.

Lemma makedirs_keeps_tmp_data g g' name :
  has_tmp_data g → Fs.makedirs name g = Ok g' → has_tmp_data g'.
Proof. intros Hd Hmk. by eapply makedirs_rev_keeps. Qed.

Lemma write_file_outside m0 g g' path content :
  tmp_data `prefix_of` Fs.parse path →
  outside_unchanged m0 g → Fs.write_file path content g = Ok g' → outside_unchanged m0 g'.
Proof.
  intros Hpath [Htmp Hout] Hw. split.
  - by eapply write_file_keeps_dir.
  - intros q Hq. rewrite <- (Hout q Hq). eapply write_file_changes; [done|]. by intros ->.
Qed.

Section Cell5Files.

Context {W : Type} (lib : External W).

Lemma savez_fs_outside m0 g g' file kwds :
  tmp_data `prefix_of` Fs.parse (npz_name file) →
  outside_unchanged m0 g → savez_fs lib file kwds g = Ok g' → outside_unchanged m0 g'.
Proof.
  unfold savez_fs. intros Hp Ho H. destruct (np_npz_bytes lib kwds); [|done].
  by eapply write_file_outside.
Qed.

Lemma save_fs_outside m0 g g' file arr :
  tmp_data `prefix_of` Fs.parse (npy_name file) →
  outside_unchanged m0 g → save_fs lib file arr g = Ok g' → outside_unchanged m0 g'.
Proof.
  unfold save_fs. intros Hp Ho H. destruct (np_npy_bytes lib arr); [|done].
  by eapply write_file_outside.
Qed.

Lemma savez_fs_keeps_tmp_data g g' file kwds :
  has_tmp_data g → savez_fs lib file kwds g = Ok g' → has_tmp_data g'.
Proof.
  unfold savez_fs. intros Hd H. destruct (np_npz_bytes lib kwds); [|done].
  by eapply write_file_keeps_dir.
Qed.

Lemma save_fs_keeps_tmp_data g g' file arr :
  has_tmp_data g → save_fs lib file arr g = Ok g' → has_tmp_data g'.
Proof.
  unfold save_fs. intros Hd H. destruct (np_npy_bytes lib arr); [|done].
  by eapply write_file_keeps_dir.
Qed.

Lemma rmtree_restores m0 g g' :
  (∀ q, tmp_data `prefix_of` q → m0 !! q = None) →
  outside_unchanged m0 g → Fs.rmtree "/tmp/data" g = Ok g' →
  (∀ q, tmp_data `prefix_of` q → g' !! q = None) ∧ g' = m0.
Proof.
  intros Hm0 [_ Hout] Hrm.
  assert (Hgone : ∀ q, tmp_data `prefix_of` q → g' !! q = None).
  { intros q Hq. by eapply rmtree_gone. }
  split; [done|]. apply map_eq. intros q.
  destruct (decide (tmp_data `prefix_of` q)) as [Hq|Hq].
  - by rewrite Hgone, Hm0.
  - rewrite (rmtree_outside _ _ _ _ Hrm Hq). by apply Hout.
Qed.

Lemma rmtree_has_tmp_data g e : has_tmp_data g → Fs.rmtree "/tmp/data" g = Raise e → False.
Proof. intros Hd Hrm. by apply rmtree_Raise in Hrm. Qed.

End Cell5Files.

(** Walking the file system forwards through the calls of a run: once
    /tmp/data is a directory it stays one, and [rmtree] cannot fail. *)
Ltac fs_known g' tac :=
  lazymatch goal with
  | _ : has_tmp_data g' |- _ => fail
  | _ => assert (has_tmp_data g') by tac
  end.

Ltac fs_forward :=
  repeat match goal with
    | Hd : has_tmp_data ?g, H : Fs.rmtree _ ?g = Raise _ |- _ =>
        destruct (rmtree_has_tmp_data _ _ Hd H)
    | Hd : has_tmp_data ?g, H : Fs.makedirs _ ?g = Ok ?g' |- _ =>
        fs_known g' ltac:(eapply makedirs_keeps_tmp_data; [exact Hd | exact H])
    | H : Fs.makedirs _ ?g = Ok ?g' |- _ =>
        fs_known g' ltac:(eapply makedirs_has_tmp_data; [|exact H]; vm_compute; reflexivity)
    | Hd : has_tmp_data ?g, H : savez_fs _ _ _ ?g = Ok ?g' |- _ =>
        fs_known g' ltac:(eapply savez_fs_keeps_tmp_data; [exact Hd | exact H])
    | Hd : has_tmp_data ?g, H : save_fs _ _ _ ?g = Ok ?g' |- _ =>
        fs_known g' ltac:(eapply save_fs_keeps_tmp_data; [exact Hd | exact H])
    end.



Section Saved.

Context {W : Type} (lib : External W).



End Saved.

(* ================================================================== *)
(** ** Runs of the notebook                                            *)
(* ================================================================== *)

Section Runs.

Context {W : Type} (lib : External W).



(** C4, what the code does: in every run that reaches its end,
    [get_stsa_dataset] is called twice in a row on the same paths, and
    [predict] twice in a row on the same sentences. *)
Theorem calls_repeated (m : Fs.FS) (c : W) :
  match (run lib m c).1 with
  | Ok _ => repeats is_get_stsa_dataset (trace (run lib m c).2)
            ∧ repeats is_predict (trace (run lib m c).2)
  | Raise _ => True
  end.
Proof.
  nb_run; try exact I.
  all: split; cbn; repeat first [ left; split; [exact I | reflexivity] | right ].
Qed.


(** C8. On a machine where /tmp/data does not exist yet, cell 5 leaves
    nothing at or below /tmp/data and the file system as it found it,
    whether its calls return or raise. *)
Theorem tmp_data_removed session train test vocab (w : World W) :
  Fs.node_at (fs w) ["/"; "tmp"] = Some Fs.Dir →
  (∀ q, tmp_data `prefix_of` q → fs w !! q = None) →
  (∀ q, tmp_data `prefix_of` q →
        fs (cell_5 lib session train test vocab w).2 !! q = None)
  ∧ fs (cell_5 lib session train test vocab w).2 = fs w.
Proof.
  intros Htmp Habsent.
  assert (Hstart : outside_unchanged (fs w) (fs w)) by done.
  nb_cell (cell_5 lib session train test vocab w).
  all: fs_forward.
  all: repeat match goal with
    | Ho : outside_unchanged ?m0 ?g, H : Fs.makedirs _ ?g = Ok ?g' |- _ =>
        lazymatch goal with
        | _ : outside_unchanged m0 g' |- _ => fail
        | _ => assert (outside_unchanged m0 g')
                 by (eapply makedirs_outside; [|exact Ho|exact H]; vm_compute; reflexivity)
        end
    | Ho : outside_unchanged ?m0 ?g, H : savez_fs _ _ _ ?g = Ok ?g' |- _ =>
        lazymatch goal with
        | _ : outside_unchanged m0 g' |- _ => fail
        | _ => assert (outside_unchanged m0 g')
                 by (eapply savez_fs_outside; [|exact Ho|exact H]; vm_compute; by eexists)
        end
    | Ho : outside_unchanged ?m0 ?g, H : save_fs _ _ _ ?g = Ok ?g' |- _ =>
        lazymatch goal with
        | _ : outside_unchanged m0 g' |- _ => fail
        | _ => assert (outside_unchanged m0 g')
                 by (eapply save_fs_outside; [|exact Ho|exact H]; vm_compute; by eexists)
        end
    end.
  all: try done.
  all: match goal with
       | H : Fs.rmtree _ ?g = Ok ?g', Ho : outside_unchanged _ ?g |- _ =>
           exact (rmtree_restores _ _ _ Habsent Ho H)
       end.
Qed.

(** The same without the assumption on the machine: once the first
    [os.makedirs] of cell 5 has returned, nothing is left at or below
    /tmp/data after the cell. *)
Lemma made_tmp_data_is_removed session train test vocab (w : World W) g :
  Fs.makedirs "/tmp/data/train_sentiment" (fs w) = Ok g →
  ∀ q, tmp_data `prefix_of` q →
       fs (cell_5 lib session train test vocab w).2 !! q = None.
Proof.
  intros Hmade q Hq.
  nb_cell (cell_5 lib session train test vocab w).
  all: simplify_eq; fs_forward.
  all: match goal with
       | H : Fs.rmtree _ _ = Ok _ |- _ => exact (rmtree_gone _ _ _ _ H Hq)
       end.
Qed.

End Runs.

(* ================================================================== *)
(** ** readlines                                                       *)
(* ================================================================== *)

Lemma total_size_nonneg lines : 0 <= total_size lines.
Proof. induction lines as [|l ls IH]; simpl; lia. Qed.











Lemma readlines_file_loop_whole hint length lines :
  ∃ f', readlines_file_loop hint length lines None
        = Ok ((readlines_loop hint length lines).1, f').
Proof.
  revert length. induction lines as [|line lines IH]; intros length; simpl.
  - by eexists.
  - destruct (hint - length <? Z.of_nat (Py.len line)); [by eexists|].
    destruct (IH (length + Z.of_nat (Py.len line))) as [f' ->].
    destruct (readlines_loop hint (length + Z.of_nat (Py.len line)) lines).
    by eexists.
Qed.

(** A file that decodes is read without an error. *)
Lemma readlines_file_whole hint f :
  pending f = None →
  ∃ f', readlines_file hint f = Ok ((readlines hint (unread f)).1, f').
Proof.
  intros Hp. unfold readlines_file, readlines. rewrite Hp.
  destruct (hint <=? 0); [by eexists|]. apply readlines_file_loop_whole.
Qed.


(* ================================================================== *)
(** ** Cell 19                                                         *)
(* ================================================================== *)

Section Cell19.

Context {W : Type} (lib : External W).

Lemma TextIOWrapper_of_decoded content text :
  locale_decode lib content = Some text →
  TextIOWrapper_of lib content = {| unread := lines_of text; pending := None |}.
Proof. unfold TextIOWrapper_of. by intros ->. Qed.

(** C9. In cell 19 [predict] is called twice on the same sentences, in
    and after the [with] block; what is printed is the second answer. It
    is the first answer exactly when the two answers print alike. A
    deterministic endpoint guarantees that; an endpoint that is not
    deterministic can print alike too. *)
Theorem second_prediction_printed predictor file_paths path content text
        (w : World W) predictions1 c1 predictions2 c2 :
  file_paths !! 1%nat = Some path →
  Fs.read_file path (fs w) = Ok content →
  locale_decode lib content = Some text →
  Predictor_predict lib predictor (sent_to_endpoint text) (fs w) (cloud w)
    = (Ok predictions1, c1) →
  Predictor_predict lib predictor (sent_to_endpoint text) (fs w) c1
    = (Ok predictions2, c2) →
  trace (cell_19 lib predictor file_paths w).2
    = trace w ++ [ (call_open path, Returned (VStr content));
                   (call_predict (sent_to_endpoint text), Returned (VRows predictions1));
                   (call_predict (sent_to_endpoint text), Returned (VRows predictions2)) ]
  ∧ stdout (cell_19 lib predictor file_paths w).2 = stdout w ++ printed predictions2
  ∧ (stdout (cell_19 lib predictor file_paths w).2 = stdout w ++ printed predictions1
     ↔ printed predictions1 = printed predictions2)
  ∧ (deterministic_on lib predictor (sent_to_endpoint text) →
     stdout (cell_19 lib predictor file_paths w).2 = stdout w ++ printed predictions1).
Proof.
  intros Hpath Hread Hdec H1 H2.
  destruct (readlines_file_whole 2000 {| unread := lines_of text; pending := None |})
    as [f' Hlines]; [done|]. cbn [unread] in Hlines.
  assert (Hrun : cell_19 lib predictor file_paths w
                 = (unpack_all predictions2,
                    mkWorld (fs w) c2
                      (trace w ++ [ (call_open path, Returned (VStr content));
                         (call_predict (sent_to_endpoint text), Returned (VRows predictions1));
                         (call_predict (sent_to_endpoint text), Returned (VRows predictions2)) ])
                      (stdout w ++ printed predictions2))).
  { unfold sent_to_endpoint, payload in *.
    nb_unfold. rewrite Hpath. nb_norm. rewrite Hread. nb_norm.
    rewrite (TextIOWrapper_of_decoded _ _ Hdec), Hlines. nb_norm.
    rewrite H1. nb_norm. rewrite H2. nb_norm.
    rewrite <- !app_assoc. done. }
  rewrite Hrun. cbn [snd trace stdout].
  split; [done|]. split; [done|]. split.
  - split; [by intros ?%app_inv_head | by intros ->].
  - intros Hdet. specialize (Hdet (fs w) (fs w) (cloud w) c1).
    rewrite H1, H2 in Hdet. by injection Hdet as ->.
Qed.


End Cell19.

(* ================================================================== *)
(** ** The labels of the preprocessed dataset                          *)
(* ================================================================== *)

Section Labels.

Variable make_vocab : list (list string) -> Vocab.
Variable make_array : Vocab -> list string -> Sentence.

Lemma read_label_binary c label : Dataset.read_label c = Ok label → binary label.
Proof.
  unfold Dataset.read_label, binary.
  destruct (Ascii.eqb c "0"); [intros [= <-]; by left|].
  destruct (Ascii.eqb c "1"); [intros [= <-]; by right|done].
Qed.

Lemma read_lines_binary lines ds :
  Dataset.read_lines lines = Ok ds → Forall (fun x => binary x.2) ds.
Proof.
  revert ds. induction lines as [|line lines IH]; intros ds; simpl.
  - intros [= <-]. constructor.
  - unfold Dataset.read_line. destruct line as [|c text]; [done|].
    destruct (Dataset.read_label c) as [label|] eqn:Hl; [|done].
    destruct (Dataset.read_lines lines) as [xs|]; [|done].
    intros [= <-]. constructor; [by eapply read_label_binary | by apply IH].
Qed.

Lemma read_dataset_binary path m ds :
  Dataset.read_dataset path m = Ok ds → Forall (fun x => binary x.2) ds.
Proof.
  unfold Dataset.read_dataset. destruct (Fs.read_file path m); [|done].
  apply read_lines_binary.
Qed.

Lemma column_1_transform vocab ds :
  column_1 (Dataset.transform_to_array make_array vocab ds) = map snd ds.
Proof. unfold column_1, Dataset.transform_to_array. rewrite map_map. done. Qed.

Lemma column_0_transform vocab ds :
  column_0 (Dataset.transform_to_array make_array vocab ds)
  = map (make_array vocab) (map fst ds).
Proof. unfold column_0, Dataset.transform_to_array. by rewrite !map_map. Qed.

Lemma zip_columns (ds : Dataset) : zip (column_0 ds) (column_1 ds) = ds.
Proof.
  unfold column_0, column_1. induction ds as [|[s l] ds IH]; [done|].
  simpl. by rewrite IH.
Qed.

(** C5. Every element of the preprocessed training and test sets is a
    pair of a sentence, encoded as an array, and a label that is 0 or 1,
    so the projections of cell 5 give the arrays and labels in {0, 1}. *)
Theorem labels_are_binary file_paths m train test vocab :
  Dataset.get_stsa_dataset make_vocab make_array file_paths m = Ok (train, test, vocab) →
  Forall binary (column_1 train)
  ∧ Forall binary (column_1 test)
  ∧ (∃ sentences, column_0 train = map (make_array vocab) sentences)
  ∧ (∃ sentences, column_0 test = map (make_array vocab) sentences)
  ∧ zip (column_0 train) (column_1 train) = train
  ∧ zip (column_0 test) (column_1 test) = test.
Proof.
  unfold Dataset.get_stsa_dataset.
  destruct file_paths as [|train_path [|test_path ?]]; [done|done|].
  destruct (Dataset.read_dataset train_path m) as [raw_train|] eqn:Htrain; [|done].
  destruct (Dataset.read_dataset test_path m) as [raw_test|] eqn:Htest; [|done].
  intros [= <- <- <-].
  apply read_dataset_binary in Htrain, Htest.
  rewrite !zip_columns.
  rewrite !column_1_transform, !column_0_transform, !Forall_fmap.
  repeat split; try done; by eexists.
Qed.

End Labels.

(* ================================================================== *)
(** ** The channels of the training job                                *)
(* ================================================================== *)

Section Channels.

Context {W : Type} (lib : External W).

(** C7. [fit] is called with the channels train, test and vocab; for each
    the container sets [SM_CHANNEL_] followed by the name in capitals to
    the directory of the channel's data; the channel variables the
    defaults of the script read are exactly these three, and the
    arguments [train], [test] and [vocab] get the three directories. *)
Theorem fit_channels_reach_script (layout : Container.Layout) session role
        train_input test_input vocab_input (w : World W) :
  ∃ estimator inputs o args,
    trace (cell_9 lib session role train_input test_input vocab_input w).2
      = trace w ++ [(call_fit estimator inputs, o)]
    ∧ map fst inputs = ["train"; "test"; "vocab"]
    ∧ Forall (fun channel_name =>
                TrainingScript.os_environ (Container.environ layout (map fst inputs))
                  (Container.channel_variable channel_name)
                = Ok (Container.channel_dir layout channel_name))
             (map fst inputs)
    ∧ TrainingScript.channel_variables_read
      = map Container.channel_variable (map fst inputs)
    ∧ TrainingScript.channel_variables_read
      = ["SM_CHANNEL_TRAIN"; "SM_CHANNEL_TEST"; "SM_CHANNEL_VOCAB"]
    ∧ TrainingScript.parse_known_args (Container.environ layout (map fst inputs))
        (Container.argv (hyperparameters estimator)) = Ok args
    ∧ TrainingScript.get "train" args = Some (Container.channel_dir layout "train")
    ∧ TrainingScript.get "test" args = Some (Container.channel_dir layout "test")
    ∧ TrainingScript.get "vocab" args = Some (Container.channel_dir layout "vocab").
Proof.
  pattern (cell_9 lib session role train_input test_input vocab_input w).
  match goal with |- ?P _ => set (Q := P) end.
  nb_exec; subst Q; nb_leaf.
  all: eexists _, _, _, _; split; [reflexivity|]; split; [reflexivity|].
  all: split; [repeat constructor|]; split; [reflexivity|]; split; [reflexivity|].
  all: split; [vm_compute; reflexivity|]; repeat split; reflexivity.
Qed.

End Channels.

(* ================================================================== *)
(** ** The functions a hosting script must implement                   *)
(* ================================================================== *)

Section HostingFacts.

Context {Model Array : Type}.
Variable model_call : Model -> Array -> Array.
Variable npy_loads : string -> Result Array.
Variable npy_dumps : Array -> string.

(** C2, as the notebook has it: of the four functions only [model_fn] is
    required; each of the other three a script leaves out is replaced by
    its default implementation. *)
Theorem only_model_fn_required :
  (∀ f, Hosting.required model_call npy_loads npy_dumps f ↔ f = Hosting.fn_model)
  ∧ (∀ load i p o,
       Hosting.handlers model_call npy_loads npy_dumps
         {| Hosting.model_fn := Some load; Hosting.input_fn := i;
            Hosting.predict_fn := p; Hosting.output_fn := o |}
       = Ok {| Hosting.load := load;
               Hosting.deserialize := default (Hosting.default_input_fn npy_loads) i;
               Hosting.infer := default (Hosting.default_predict_fn model_call) p;
               Hosting.serialize := default (Hosting.default_output_fn npy_dumps) o |}).
Proof.
  split; [|done]. intros f. split.
  - intros Hreq.
    specialize (Hreq {| Hosting.model_fn := Some (fun _ => Raise (KeyError "model"));
                        Hosting.input_fn := None; Hosting.predict_fn := None;
                        Hosting.output_fn := None |}).
    destruct f; [done| | |]; destruct Hreq as [? [=]]; by eexists.
  - intros -> s [h Hh]. unfold Hosting.handlers in Hh. simpl.
    destruct (Hosting.model_fn s); [by eexists|done].
Qed.

End HostingFacts.

(** C2, as the specification has it, fails: a script that implements
    [model_fn] alone is hosted and answers requests. *)
Lemma four_functions_not_all_required :
  ¬ (∀ f, Hosting.required Demo.model_call Demo.npy_loads Demo.npy_dumps f).
Proof.
  intros Hall.
  destruct (Hall Hosting.fn_input Demo.script_with_model_fn_only) as [? [=]].
  by eexists.
Qed.

Example model_fn_alone_serves :
  Hosting.invoke Demo.model_call Demo.npy_loads Demo.npy_dumps
    Demo.script_with_model_fn_only "/opt/ml/model" "abc" "application/x-npy"
    "application/x-npy" = Ok "3".
Proof. reflexivity. Qed.

(* ================================================================== *)
(** ** The theorems at work on the example environment                 *)
(* ================================================================== *)

(** The run on the example environment, read by the names of its calls:
    [get_stsa_dataset] twice, and the last two [predict] one after the
    other. *)
Example demo_run :
  (run Demo.lib Demo.disk 0%nat).1 = Ok tt
  ∧ Demo.names (trace (run Demo.lib Demo.disk 0%nat).2)
    = [ "Session"; "get_execution_role"; "download_dataset"; "get_stsa_dataset";
        "get_stsa_dataset"; "open"; "makedirs"; "makedirs"; "makedirs"; "savez";
        "savez"; "save"; "upload_data"; "upload_data"; "upload_data"; "rmtree";
        "shell"; "fit"; "describe_training_job"; "retrieve_output_from_s3"; "Image";
        "Image"; "display"; "deploy"; "predict"; "open"; "predict"; "predict";
        "delete_endpoint" ].
Proof. split; vm_compute; reflexivity. Qed.

(** A training job that fails ends the run with the vendor's exception,
    right after [fit]. *)
Example demo_failed_training :
  (run Demo.lib_failing_fit Demo.disk 0%nat).1 = Raise (VendorError "training job failed")
  ∧ Demo.names (trace (run Demo.lib_failing_fit Demo.disk 0%nat).2)
    = [ "Session"; "get_execution_role"; "download_dataset"; "get_stsa_dataset";
        "get_stsa_dataset"; "open"; "makedirs"; "makedirs"; "makedirs"; "savez";
        "savez"; "save"; "upload_data"; "upload_data"; "upload_data"; "rmtree";
        "shell"; "fit" ].
Proof. split; vm_compute; reflexivity. Qed.

(** An upload that fails is followed by the [finally] clause only, and
    the vendor's exception ends the run; /tmp/data is gone. *)
Example demo_failed_upload :
  (run Demo.lib_failing_upload Demo.disk 0%nat).1 = Raise (VendorError "upload failed")
  ∧ Demo.names (trace (run Demo.lib_failing_upload Demo.disk 0%nat).2)
    = [ "Session"; "get_execution_role"; "download_dataset"; "get_stsa_dataset";
        "get_stsa_dataset"; "open"; "makedirs"; "makedirs"; "makedirs"; "savez";
        "savez"; "save"; "upload_data"; "upload_data"; "rmtree" ]
  ∧ Fs.node_at (fs (run Demo.lib_failing_upload Demo.disk 0%nat).2) tmp_data = None.
Proof. repeat split; vm_compute; reflexivity. Qed.

(** On a machine where /tmp/data is a file, [os.makedirs] raises, then
    [shutil.rmtree] in the [finally] clause raises too, and the run ends
    with the latter exception. *)
Example demo_tmp_data_is_a_file :
  (run Demo.lib (<[tmp_data := Fs.File "x"]> Demo.disk) 0%nat).1
  = Raise (NotADirectoryError tmp_data)
  ∧ List.filter (fun ev => match ev.2 with Raised _ => true | _ => false end)
      (trace (run Demo.lib (<[tmp_data := Fs.File "x"]> Demo.disk) 0%nat).2)
    = [ (call_makedirs "/tmp/data/train_sentiment",
         Raised (NotADirectoryError ["/"; "tmp"; "data"; "train_sentiment"]));
        (call_rmtree "/tmp/data", Raised (NotADirectoryError tmp_data)) ].
Proof. split; vm_compute; reflexivity. Qed.

(** Of the hundred lines of the example test file, sixty-nine are sent. *)
Example demo_not_whole_test_set :
  length (lines_of Demo.test_text) = 100%nat
  ∧ length (sent_to_endpoint Demo.test_text) = 69%nat.
Proof. split; vm_compute; reflexivity. Qed.

Lemma labels_are_binary_witness :
  ∃ train test vocab,
    Dataset.get_stsa_dataset Demo.make_vocab Demo.make_array
      ["stsa.binary.train"; "stsa.binary.test"] Demo.downloaded = Ok (train, test, vocab)
    ∧ Forall binary (column_1 train)
    ∧ Forall binary (column_1 test)
    ∧ (∃ sentences, column_0 train = map (Demo.make_array vocab) sentences)
    ∧ (∃ sentences, column_0 test = map (Demo.make_array vocab) sentences)
    ∧ zip (column_0 train) (column_1 train) = train
    ∧ zip (column_0 test) (column_1 test) = test.
Proof.
  eexists _, _, _. split; [vm_compute; reflexivity|].
  apply (labels_are_binary Demo.make_vocab Demo.make_array
           ["stsa.binary.train"; "stsa.binary.test"] Demo.downloaded).
  vm_compute. reflexivity.
Defined.


Lemma disk_has_no_tmp_data q : tmp_data `prefix_of` q → Demo.disk !! q = None.
Proof. intros [k ->]. by apply lookup_singleton_ne. Qed.

Lemma tmp_data_removed_witness :
  (∀ q, tmp_data `prefix_of` q →
        fs (cell_5 Demo.lib "session" [] [] [] (start Demo.disk 0%nat)).2 !! q = None)
  ∧ fs (cell_5 Demo.lib "session" [] [] [] (start Demo.disk 0%nat)).2 = Demo.disk.
Proof.
  apply (tmp_data_removed Demo.lib "session" [] [] [] (start Demo.disk 0%nat)).
  - vm_compute. reflexivity.
  - exact disk_has_no_tmp_data.
Defined.

(** On the example endpoint, which is not deterministic, what cell 19
    prints is the second answer and not the first. *)
Lemma second_prediction_printed_witness :
  let w := mkWorld Demo.downloaded 1%nat [] [] in
  let file_paths := ["stsa.binary.train"; "stsa.binary.test"] in
  let data := sent_to_endpoint Demo.test_text in
  stdout (cell_19 Demo.lib "endpoint" file_paths w).2 = printed (Demo.endpoint 2 data)
  ∧ stdout (cell_19 Demo.lib "endpoint" file_paths w).2 ≠ printed (Demo.endpoint 1 data).
Proof.
  intros w file_paths data.
  destruct (second_prediction_printed Demo.lib "endpoint" file_paths
              "stsa.binary.test" Demo.test_text Demo.test_text w
              (Demo.endpoint 1 data) 2%nat (Demo.endpoint 2 data) 3%nat)
    as (_ & Hout & Hiff & _).
  - reflexivity.
  - vm_compute. reflexivity.
  - vm_compute. reflexivity.
  - reflexivity.
  - reflexivity.
  - split; [exact Hout|].
    intros Hfirst. apply Hiff in Hfirst. vm_compute in Hfirst. discriminate Hfirst.
Defined.

(** C9, as the specification has it, fails: an endpoint that is not
    deterministic can answer the two requests of cell 19 alike, and what
    is printed is then the first answer too. *)
Lemma printed_alike_without_determinism :
  ¬ (∀ (lib : External nat) predictor file_paths path content text (w : World nat)
       predictions1 c1,
       file_paths !! 1%nat = Some path →
       Fs.read_file path (fs w) = Ok content →
       locale_decode lib content = Some text →
       Predictor_predict lib predictor (sent_to_endpoint text) (fs w) (cloud w)
         = (Ok predictions1, c1) →
       stdout (cell_19 lib predictor file_paths w).2 = stdout w ++ printed predictions1 →
       deterministic_on lib predictor (sent_to_endpoint text)).
Proof.
  intros H.
  specialize (H Demo2.lib_settling "endpoint" ["stsa.binary.train"; "stsa.binary.test"]
                "stsa.binary.test" Demo.test_text Demo.test_text
                (mkWorld Demo.downloaded 1%nat [] [])
                (Demo.endpoint 0 (sent_to_endpoint Demo.test_text)) 2%nat).
  assert (Hdet : deterministic_on Demo2.lib_settling "endpoint"
                   (sent_to_endpoint Demo.test_text)).
  { apply H.
    - reflexivity.
    - vm_compute. reflexivity.
    - vm_compute. reflexivity.
    - reflexivity.
    - vm_compute. reflexivity. }
  specialize (Hdet ∅ ∅ 0%nat 5%nat). vm_compute in Hdet. discriminate Hdet.
Qed.



Example demo_characters_counted :
  let w := mkWorld Demo2.wide 1%nat [] [] in
  let file_paths := ["stsa.binary.train"; "stsa.binary.test"] in
  omap (fun ev => match ev.1 with
                  | call_predict data => Some (length data)
                  | _ => None
                  end) (trace (cell_19 Demo2.lib_wide "endpoint" file_paths w).2)
  = [69%nat; 69%nat]
  ∧ length (sent_to_endpoint (Demo2.wide_encode Demo.test_text)) = 35%nat.
Proof. split; vm_compute; reflexivity. Qed.

(** A test file that does not decode: cell 19 opens it and raises before
    anything is sent. *)
Example demo_undecodable_test_file :
  let w := mkWorld Demo2.undecodable 1%nat [] [] in
  let file_paths := ["stsa.binary.train"; "stsa.binary.test"] in
  (cell_19 Demo.lib "endpoint" file_paths w).1 = Raise UnicodeDecodeError
  ∧ Demo.names (trace (cell_19 Demo.lib "endpoint" file_paths w).2) = ["open"].
Proof. split; vm_compute; reflexivity. Qed.


(* ================================================================== *)
(** ** More on the sentences sent                                      *)
(* ================================================================== *)


(** The lines of a text put end to end are the text. *)
Lemma splitlines_concat s : String.concat EmptyString (Py.splitlines_keepends s) = s.
Proof.
  assert (Hc : ∀ l ls, String.concat EmptyString (l :: ls)
                       = l +:+ String.concat EmptyString ls).
  { intros l [|l' ls]; simpl; [by rewrite string_app_nil_r|done]. }
  induction s as [|c s IH]; [done|].
  cbn [Py.splitlines_keepends].
  destruct (Ascii.eqb c "010") eqn:Hc'.
  - rewrite Hc, IH. done.
  - destruct (Py.splitlines_keepends s) as [|l ls] eqn:Hs.
    + simpl in IH. subst s. done.
    + rewrite Hc, string_app_cons. rewrite Hc in IH. by rewrite IH.
Qed.

Lemma total_size_concat lines :
  total_size lines = Z.of_nat (String.length (String.concat EmptyString lines)).
Proof.
  induction lines as [|l ls IH]; [done|].
  assert (String.concat EmptyString (l :: ls) = l +:+ String.concat EmptyString ls) as ->.
  { destruct ls; simpl; [by rewrite string_app_nil_r|done]. }
  rewrite string_app_length. simpl total_size. unfold Py.len. lia.
Qed.


(* ================================================================== *)
(** ** More on the lines of a text file                                *)
(* ================================================================== *)

(** Translating the line ends makes no text longer. *)
Lemma universal_newlines_length s :
  (String.length (Py.universal_newlines s) <= String.length s)%nat.
Proof.
  assert (H : ∀ n s, (String.length s <= n)%nat →
                     (String.length (Py.universal_newlines s) <= String.length s)%nat).
  { clear s. induction n as [|n IH]; intros s Hn.
    - destruct s; [done|simpl in Hn; lia].
    - destruct s as [|c s]; [done|]. cbn [Py.universal_newlines].
      destruct (Ascii.eqb c "013").
      + destruct s as [|d s]; [done|].
        destruct (Ascii.eqb d "010"); cbn [String.length].
        * assert (String.length (Py.universal_newlines s) <= String.length s)%nat
            by (apply IH; simpl in *; lia). lia.
        * assert (String.length (Py.universal_newlines (String d s))
                  <= String.length (String d s))%nat by (apply IH; simpl in *; lia).
          simpl in *. lia.
      + cbn [String.length].
        assert (String.length (Py.universal_newlines s) <= String.length s)%nat
          by (apply IH; simpl in *; lia). lia. }
  by apply (H (String.length s)).
Qed.

(* ================================================================== *)
(** ** More on readlines                                               *)
(* ================================================================== *)

Lemma readlines_loop_all hint length f :
  length + total_size f <= hint → readlines_loop hint length f = (f, []).
Proof.
  revert length. induction f as [|line f IH]; intros length Hle; [done|].
  simpl in *. pose proof (total_size_nonneg f).
  destruct (hint - length <? Z.of_nat (Py.len line)) eqn:Hcmp.
  - apply Z.ltb_lt in Hcmp. lia.
  - rewrite IH by lia. done.
Qed.

(** X2. A test file of at most 2000 characters is sent whole: every line
    of it is sent, and these lines put end to end are the text of the
    file as it is read. *)
Theorem short_file_sent_whole (content : string) :
  (String.length content <= 2000)%nat →
  sent_to_endpoint content = map payload (lines_of content)
  ∧ String.concat EmptyString (lines_of content) = Py.universal_newlines content.
Proof.
  intros Hle. split; [|apply splitlines_concat].
  unfold sent_to_endpoint, readlines. simpl (2000 <=? 0). cbn iota.
  rewrite readlines_loop_all; [done|].
  unfold lines_of. rewrite total_size_concat, splitlines_concat.
  pose proof (universal_newlines_length content). lia.
Qed.

(** X3. The first line of the test file is always sent, however long it
    is: the hint of [readlines] is no cap on a line. When the first line
    alone exceeds 2000 characters, it is the only one sent. *)
Theorem first_line_always_sent (content line : string) (rest : list string) :
  lines_of content = line :: rest →
  (∃ more, sent_to_endpoint content = payload line :: more)
  ∧ (if 2000 <? Z.of_nat (Py.len line)
     then sent_to_endpoint content = [payload line]
     else True).
Proof.
  intros Hlines. unfold sent_to_endpoint, readlines. rewrite Hlines.
  simpl (2000 <=? 0). cbn iota. cbn [readlines_loop].
  replace (2000 - 0) with 2000 by lia.
  destruct (2000 <? Z.of_nat (Py.len line)) eqn:Hcmp.
  - split; [by eexists|done].
  - destruct (readlines_loop 2000 (0 + Z.of_nat (Py.len line)) rest) as [result rest'].
    split; [by eexists|done].
Qed.

(* ================================================================== *)
(** ** The loops and the smaller cells                                 *)
(* ================================================================== *)

Lemma lines_read_decoded n (lines : TextFile) :
  lines_read n {| unread := lines; pending := None |}
  = map (fun line => line +:+ LF) (take n lines) ++ replicate (n - length lines) LF.
Proof.
  revert lines. induction n as [|n IH]; intros lines; [done|].
  destruct lines as [|line lines]; cbn [lines_read readline unread pending].
  - rewrite IH, !take_nil. cbn [length map app]. rewrite !Nat.sub_0_r. done.
  - rewrite IH. done.
Qed.

Lemma after_read_decoded n (lines : TextFile) :
  after_read n {| unread := lines; pending := None |}
  = Ok {| unread := drop n lines; pending := None |}.
Proof.
  revert lines. induction n as [|n IH]; intros lines; [done|].
  destruct lines as [|line lines]; cbn [after_read readline unread pending];
    rewrite IH; [|done].
  by rewrite drop_nil.
Qed.

Lemma lines_read_broken n (lines : TextFile) e :
  lines_read n {| unread := lines; pending := Some e |}
  = map (fun line => line +:+ LF) (take n lines).
Proof.
  revert lines. induction n as [|n IH]; intros lines; [done|].
  destruct lines as [|line lines]; cbn [lines_read readline unread pending]; [done|].
  rewrite IH. done.
Qed.

Lemma after_read_broken n (lines : TextFile) e :
  after_read n {| unread := lines; pending := Some e |}
  = if (n <=? length lines)%nat
    then Ok {| unread := drop n lines; pending := Some e |}
    else Raise e.
Proof.
  revert lines. induction n as [|n IH]; intros lines; [done|].
  destruct lines as [|line lines]; cbn [after_read readline unread pending]; [done|].
  rewrite IH. done.
Qed.

Lemma printed_app good more :
  Forall (fun row : list string => length row = 3%nat) good →
  printed (good ++ more) = map (fun row => format_row row +:+ LF) good ++ printed more.
Proof.
  induction 1 as [|row good Hrow _ IH]; [done|].
  destruct row as [|a [|b [|c [|d row]]]]; try done. simpl. by rewrite IH.
Qed.

Lemma unpack_all_app good more :
  Forall (fun row : list string => length row = 3%nat) good →
  unpack_all (good ++ more) = unpack_all more.
Proof.
  induction 1 as [|row good Hrow _ IH]; [done|].
  destruct row as [|a [|b [|c [|d row]]]]; try done.
Qed.

Section SmallCells.

Context {W : Type} (lib : External W).

(** X4. The loop of cell 3 prints the first [n] lines of the file, each
    followed by the line end [print] adds. On a file that decodes it
    never raises and prints exactly [n] times, with a bare line end for
    every turn after the end of the file. On a file that does not decode
    it raises the decoding error at the first turn after the lines that
    come before the error, having printed these. *)
Theorem readline_loop_output n f (w : World W) :
  let out := map (fun line => line +:+ LF) (take n (unread f)) in
  match pending f with
  | None =>
      for_readline_print n f w
      = (Ok {| unread := drop n (unread f); pending := None |},
         mkWorld (fs w) (cloud w) (trace w)
           (stdout w ++ out ++ replicate (n - length (unread f)) LF))
      ∧ length (out ++ replicate (n - length (unread f)) LF) = n
  | Some e =>
      if (n <=? length (unread f))%nat
      then for_readline_print n f w
           = (Ok {| unread := drop n (unread f); pending := Some e |},
              mkWorld (fs w) (cloud w) (trace w) (stdout w ++ out))
      else for_readline_print n f w
           = (Raise e,
              mkWorld (fs w) (cloud w) (trace w)
                (stdout w ++ map (fun line => line +:+ LF) (unread f)))
  end.
Proof.
  destruct f as [lines [e|]]; cbn [unread pending]; rewrite for_readline_print_run.
  - rewrite lines_read_broken, after_read_broken.
    destruct (n <=? length lines)%nat eqn:Hn; [done|].
    apply Nat.leb_gt in Hn. by rewrite take_ge by lia.
  - rewrite lines_read_decoded, after_read_decoded. split; [done|].
    rewrite length_app, length_map, length_take, length_replicate. lia.
Qed.

(** X5. The printing loop of cells 17 and 19 prints the rows in order, one
    block each; at the first row that is not a triple it raises
    [ValueError], after having printed the rows before it and none after
    it. *)
Theorem rows_printed_until_malformed (good : list (list string)) (bad : list string)
        (rest : list (list string)) (w : World W) :
  Forall (fun row : list string => length row = 3%nat) good →
  length bad ≠ 3%nat →
  for_print_predictions good w
  = (Ok tt,
     mkWorld (fs w) (cloud w) (trace w)
       (stdout w ++ map (fun row => format_row row +:+ LF) good))
  ∧ for_print_predictions (good ++ bad :: rest) w
    = (Raise (ValueError "unpack"),
       mkWorld (fs w) (cloud w) (trace w)
         (stdout w ++ map (fun row => format_row row +:+ LF) good)).
Proof.
  intros Hgood Hbad. rewrite !for_print_predictions_run.
  assert (Hb : printed (bad :: rest) = [] ∧ unpack_all (bad :: rest) = Raise (ValueError "unpack")).
  { destruct bad as [|a [|b [|c [|d bad]]]]; done. }
  destruct Hb as [Hp Hu].
  rewrite (printed_app good (bad :: rest) Hgood), (unpack_all_app good (bad :: rest) Hgood).
  rewrite Hp, Hu, app_nil_r.
  pose proof (printed_app good [] Hgood) as Hp'.
  pose proof (unpack_all_app good [] Hgood) as Hu'.
  rewrite !app_nil_r in Hp', Hu'. rewrite Hp', Hu'. simpl. by rewrite app_nil_r.
Qed.

(** X6. Cell 13 shows the two plots only when both files are there. When
    accuracy.png cannot be read the cell raises at once, without looking
    for loss.png; when loss.png cannot be read it raises too; in neither
    case is anything displayed, and the cell changes no file. *)
Theorem plots_displayed_when_present (w : World W) :
  fs (cell_13 w).2 = fs w
  ∧ match Fs.read_file "output/sentiment/accuracy.png" (fs w),
          Fs.read_file "output/sentiment/loss.png" (fs w) with
    | Ok a, Ok b =>
        (cell_13 w).1 = Ok tt
        ∧ trace (cell_13 w).2
          = trace w ++ [ (call_Image "output/sentiment/accuracy.png" 800 800,
                          Returned (VStr a));
                         (call_Image "output/sentiment/loss.png" 800 800,
                          Returned (VStr b));
                         (call_display ["output/sentiment/accuracy.png";
                                        "output/sentiment/loss.png"], Returned VNone) ]
    | Raise e, _ =>
        (cell_13 w).1 = Raise e
        ∧ trace (cell_13 w).2
          = trace w ++ [ (call_Image "output/sentiment/accuracy.png" 800 800, Raised e) ]
    | Ok a, Raise e =>
        (cell_13 w).1 = Raise e
        ∧ trace (cell_13 w).2
          = trace w ++ [ (call_Image "output/sentiment/accuracy.png" 800 800,
                          Returned (VStr a));
                         (call_Image "output/sentiment/loss.png" 800 800, Raised e) ]
    end.
Proof.
  nb_unfold. nb_norm.
  destruct (Fs.read_file "output/sentiment/accuracy.png" (fs w)) as [a|e]; nb_norm;
    [|done].
  destruct (Fs.read_file "output/sentiment/loss.png" (fs w)) as [b|e]; nb_norm;
    rewrite <- ?app_assoc; done.
Qed.

(** X7. Cell 19 does not reach the endpoint unless the test file is there
    and can be read: with fewer than two paths it raises [IndexError] and
    does nothing; when the file cannot be opened it raises what [open]
    raised; when [readlines] raises because the bytes do not decode, the
    cell ends with that error. In none of these cases is [predict]
    called, and the vendor's state is untouched. Otherwise [predict] is
    called right after [open]. *)
Theorem endpoint_needs_test_file predictor file_paths (w : World W) :
  match file_paths !! 1%nat with
  | None => cell_19 lib predictor file_paths w = (Raise IndexError, w)
  | Some path =>
      match Fs.read_file path (fs w) with
      | Raise e =>
          cell_19 lib predictor file_paths w
          = (Raise e,
             mkWorld (fs w) (cloud w) (trace w ++ [(call_open path, Raised e)]) (stdout w))
      | Ok content =>
          match readlines_file 2000 (TextIOWrapper_of lib content) with
          | Raise e =>
              cell_19 lib predictor file_paths w
              = (Raise e,
                 mkWorld (fs w) (cloud w)
                   (trace w ++ [(call_open path, Returned (VStr content))]) (stdout w))
          | Ok (read, _) =>
              ∃ o rest, trace (cell_19 lib predictor file_paths w).2
                        = trace w ++ (call_open path, Returned (VStr content))
                                  :: (call_predict (map payload read), o) :: rest
          end
      end
  end.
Proof.
  destruct (file_paths !! 1%nat) as [path|] eqn:Hpath.
  - destruct (Fs.read_file path (fs w)) as [content|e] eqn:Hread.
    + destruct (readlines_file 2000 (TextIOWrapper_of lib content)) as [[read f']|e]
        eqn:Hlines.
      * unfold payload.
        pattern (cell_19 lib predictor file_paths w).
        match goal with |- ?P _ => set (Q := P) end.
        nb_unfold. rewrite Hpath. nb_norm. rewrite Hread. nb_norm.
        rewrite Hlines. nb_norm.
        repeat nb_step; subst Q; nb_leaf; rewrite <- ?app_assoc; cbn [app];
          eexists _, _; reflexivity.
      * nb_unfold. rewrite Hpath. nb_norm. rewrite Hread. nb_norm.
        rewrite Hlines. nb_norm. done.
    + nb_unfold. rewrite Hpath. nb_norm. rewrite Hread. nb_norm. done.
  - nb_unfold. rewrite Hpath. nb_norm. by destruct w.
Qed.

End SmallCells.

(* ================================================================== *)
(** ** Cell 11: the location of the output archive                     *)
(* ================================================================== *)

Lemma replace_go_absent fuel old new s i :
  find_from i old s = None → Py.replace_go fuel old new s = s.
Proof.
  revert s i. induction fuel as [|fuel IH]; intros s i Hfind; [done|].
  destruct s as [|c s]; [done|]. cbn [Py.replace_go]. cbn [find_from] in Hfind.
  destruct (Py.startswith old (String c s)); [done|].
  by rewrite (IH s (S i) Hfind).
Qed.

Lemma replace_go_empty fuel old new : Py.replace_go fuel old new EmptyString = EmptyString.
Proof. by destruct fuel. Qed.

Lemma replace_go_suffix fuel old new dir i :
  old ≠ EmptyString →
  find_from i old (dir +:+ old) = Some (i + String.length dir)%nat →
  (String.length (dir +:+ old) <= fuel)%nat →
  Py.replace_go fuel old new (dir +:+ old) = dir +:+ new.
Proof.
  intros Hold. revert fuel i. induction dir as [|c dir IH]; intros fuel i Hfind Hfuel.
  - change (EmptyString +:+ old) with old in *. change (EmptyString +:+ new) with new.
    destruct old as [|c old]; [done|]. simpl in Hfuel.
    destruct fuel as [|fuel]; [lia|]. cbn [Py.replace_go].
    pose proof (startswith_app (String c old) EmptyString) as Hs.
    rewrite string_app_nil_r in Hs. rewrite Hs.
    pose proof (drop_app (String c old) EmptyString) as Hd.
    rewrite string_app_nil_r in Hd. rewrite Hd.
    by rewrite replace_go_empty, string_app_nil_r.
  - rewrite string_app_cons in *. simpl in Hfuel.
    destruct fuel as [|fuel]; [lia|]. cbn [Py.replace_go]. cbn [find_from] in Hfind.
    destruct (Py.startswith old (String c (dir +:+ old))).
    + injection Hfind as Hfind. simpl in Hfind. lia.
    + rewrite string_app_cons. f_equal. apply (IH fuel (S i)); [|lia].
      rewrite Hfind. f_equal. simpl. lia.
Qed.

Section Cell11.

Context {W : Type} (lib : External W).

(** X8. When the model artifacts are at [dir + 'model.tar.gz'] and the
    name does not occur earlier in that location, cell 11 asks for
    [dir + 'output.tar.gz'] and has it extracted into output/sentiment. *)
Theorem output_archive_requested session job (dir : string) c1 (w : World W) :
  Session_describe_training_job lib session job (fs w) (cloud w)
    = (Ok (dir +:+ "model.tar.gz"), c1) →
  find "model.tar.gz" (dir +:+ "model.tar.gz") = Some (String.length dir) →
  ∃ o, trace (cell_11 lib session job w).2
       = trace w ++ [ (call_describe_training_job job,
                       Returned (VStr (dir +:+ "model.tar.gz")));
                      (call_retrieve_output_from_s3 (dir +:+ "output.tar.gz")
                         "output/sentiment", o) ].
Proof.
  intros Hdesc Hfind.
  assert (Hrep : Py.replace "model.tar.gz" "output.tar.gz" (dir +:+ "model.tar.gz")
                 = dir +:+ "output.tar.gz").
  { unfold Py.replace. apply (replace_go_suffix _ _ _ _ 0%nat); [done|done|lia]. }
  nb_unfold. nb_norm. rewrite Hdesc. nb_norm. rewrite Hrep.
  destruct (s3_util_retrieve_output_from_s3 lib _ _ _ _) as [[r m] c2].
  nb_norm. rewrite <- !app_assoc. by eexists.
Qed.

(** X9. [str.replace] changes nothing when there is nothing to replace: a
    location of the model artifacts in which model.tar.gz does not occur
    is passed to [retrieve_output_from_s3] as it is. *)
Theorem other_location_passed_unchanged session job (location : string) c1
        (w : World W) :
  Session_describe_training_job lib session job (fs w) (cloud w)
    = (Ok location, c1) →
  find "model.tar.gz" location = None →
  ∃ o, trace (cell_11 lib session job w).2
       = trace w ++ [ (call_describe_training_job job, Returned (VStr location));
                      (call_retrieve_output_from_s3 location "output/sentiment", o) ].
Proof.
  intros Hdesc Hfind.
  assert (Hrep : Py.replace "model.tar.gz" "output.tar.gz" location = location).
  { unfold Py.replace. by apply (replace_go_absent _ _ _ _ 0%nat). }
  nb_unfold. nb_norm. rewrite Hdesc. nb_norm. rewrite Hrep.
  destruct (s3_util_retrieve_output_from_s3 lib _ _ _ _) as [[r m] c2].
  nb_norm. rewrite <- !app_assoc. by eexists.
Qed.

End Cell11.

(* ================================================================== *)
(** ** More on cell 5                                                  *)
(* ================================================================== *)

Lemma makedirs_existing (m : Fs.FS) n :
  has_tmp_data m →
  Fs.node_at m ["/"; "tmp"; "data"; "train_sentiment"] = Some n →
  Fs.makedirs "/tmp/data/train_sentiment" m
  = Raise (FileExistsError ["/"; "tmp"; "data"; "train_sentiment"]).
Proof.
  intros Hdir Hleaf. unfold Fs.makedirs.
  change (rev (Fs.parse "/tmp/data/train_sentiment"))
    with ["train_sentiment"; "data"; "tmp"; "/"].
  cbn [Fs.makedirs_rev].
  change (rev ["data"; "tmp"; "/"]) with tmp_data. rewrite Hdir.
  change (rev ["train_sentiment"; "data"; "tmp"; "/"])
    with ["/"; "tmp"; "data"; "train_sentiment"].
  unfold Fs.mkdir. by rewrite Hleaf.
Qed.

Section Cell5More.

Context {W : Type} (lib : External W).

(** X10. On a machine where /tmp/data/train_sentiment exists already, cell
    5 raises [FileExistsError] at its first line, writes and uploads
    nothing, and its [finally] clause still removes /tmp/data with all
    that was in it before. *)
Theorem existing_directory_fails_and_is_deleted session train test vocab
        (w : World W) n :
  has_tmp_data (fs w) →
  Fs.node_at (fs w) ["/"; "tmp"; "data"; "train_sentiment"] = Some n →
  (cell_5 lib session train test vocab w).1
    = Raise (FileExistsError ["/"; "tmp"; "data"; "train_sentiment"])
  ∧ trace (cell_5 lib session train test vocab w).2
    = trace w ++ [ (call_makedirs "/tmp/data/train_sentiment",
                    Raised (FileExistsError ["/"; "tmp"; "data"; "train_sentiment"]));
                   (call_rmtree "/tmp/data", Returned VNone) ]
  ∧ cloud (cell_5 lib session train test vocab w).2 = cloud w
  ∧ ∀ q, tmp_data `prefix_of` q →
         fs (cell_5 lib session train test vocab w).2 !! q = None.
Proof.
  intros Hdir Hleaf.
  pose proof (makedirs_existing _ _ Hdir Hleaf) as Hmk.
  assert (Hrm : ∃ g, Fs.rmtree "/tmp/data" (fs w) = Ok g) .
  { unfold Fs.rmtree. change (Fs.parse "/tmp/data") with tmp_data.
    unfold has_tmp_data in Hdir. rewrite Hdir. by eexists. }
  destruct Hrm as [g Hrm].
  nb_unfold. nb_norm. rewrite Hmk. nb_norm. rewrite Hrm. nb_norm.
  rewrite <- !app_assoc. repeat split; try done.
  intros q Hq. by eapply rmtree_gone.
Qed.

(** X11. Whatever happens in cell 5, the last thing it does is to call
    [shutil.rmtree('/tmp/data')]; when the cell ends normally that call
    has returned. *)
Theorem rmtree_is_last session train test vocab (w : World W) :
  ∃ o, last (trace (cell_5 lib session train test vocab w).2)
       = Some (call_rmtree "/tmp/data", o)
       ∧ match (cell_5 lib session train test vocab w).1 with
         | Ok _ => o = Returned VNone
         | Raise _ => True
         end.
Proof.
  nb_cell (cell_5 lib session train test vocab w).
  all: eexists; split; [apply last_snoc | done].
Qed.

End Cell5More.

(* ================================================================== *)
(** ** More on the training script and its environment                 *)
(* ================================================================== *)

Module ScriptFacts.
Import TrainingScript.

Lemma defaults_missing environ args key :
  In key (environ_keys args) → get key environ = None →
  ∃ key', defaults environ args = Raise (KeyError key')
          ∧ In key' (environ_keys args) ∧ get key' environ = None.
Proof.
  induction args as [|a args IH]; [done|]. unfold environ_keys in *.
  cbn [omap list_omap defaults]. destruct (default a) as [v|k] eqn:Hd.
  - intros Hin Hnone. destruct (IH Hin Hnone) as (key' & -> & Hin' & Hnone').
    by exists key'.
  - unfold os_environ. destruct (get k environ) as [v|] eqn:Hk.
    + intros [->|Hin] Hnone; [congruence|].
      destruct (IH Hin Hnone) as (key' & -> & Hin' & Hnone').
      exists key'. split; [done|]. split; [by right|done].
    + intros _ _. exists k. split; [done|]. split; [by left|done].
Qed.

End ScriptFacts.

(** X12. The defaults of the script are evaluated when the parser is built:
    when one of the five environment variables they read is not set,
    parsing raises [KeyError] for one of them that is missing,
    whatever the command line gives, the option itself included. *)
Theorem missing_variable_raises (environ : list (string * string))
        (argv : list string) (key : string) :
  In key TrainingScript.variables_read →
  TrainingScript.get key environ = None →
  ∃ key', TrainingScript.parse_known_args environ argv = Raise (KeyError key')
          ∧ In key' TrainingScript.variables_read
          ∧ TrainingScript.get key' environ = None.
Proof.
  intros Hin Hnone. unfold TrainingScript.parse_known_args.
  destruct (ScriptFacts.defaults_missing environ TrainingScript.arguments key Hin Hnone)
    as (key' & -> & Hin' & Hnone').
  by exists key'.
Qed.

Lemma all_digits_of_uint d : TrainingScript.all_digits (NilEmpty.string_of_uint d) = true.
Proof. induction d; simpl; done. Qed.

(** [int] accepts the decimal form of every integer. *)
Lemma accepts_int_of_Z (z : Z) :
  TrainingScript.accepts TrainingScript.type_int (NilEmpty.string_of_int (Z.to_int z)) = true.
Proof.
  destruct z as [|p|p]; [done| |]; cbn [Z.to_int NilEmpty.string_of_int].
  - pose proof (DecimalPos.Unsigned.to_uint_nonnil p) as Hnil.
    pose proof (all_digits_of_uint (Pos.to_uint p)) as Hdig.
    destruct (Pos.to_uint p); done.
  - pose proof (DecimalPos.Unsigned.to_uint_nonnil p) as Hnil.
    pose proof (all_digits_of_uint (Pos.to_uint p)) as Hdig.
    cbn [TrainingScript.accepts]. change (Ascii.eqb "-" "-" || Ascii.eqb "-" "+") with true.
    cbn iota. rewrite Hdig. destruct (Pos.to_uint p); done.
Qed.

(** X13. With the five variables set and no argument given, every option
    has its default, stored under its name with underscores. Integers
    given in decimal with [--epochs] and [--batch-size] replace these two
    defaults and nothing else. *)
Theorem defaults_and_overrides (environ : list (string * string))
        (output_data_dir model_dir train test vocab : string) (epochs batch_size : Z) :
  TrainingScript.get "SM_OUTPUT_DATA_DIR" environ = Some output_data_dir →
  TrainingScript.get "SM_MODEL_DIR" environ = Some model_dir →
  TrainingScript.get "SM_CHANNEL_TRAIN" environ = Some train →
  TrainingScript.get "SM_CHANNEL_TEST" environ = Some test →
  TrainingScript.get "SM_CHANNEL_VOCAB" environ = Some vocab →
  TrainingScript.parse_known_args environ []
  = Ok [ ("epochs", "30"); ("batch_size", "64"); ("dropout", "0.4");
         ("num_layers", "1"); ("num_units", "300"); ("model_type", "rnn");
         ("output_data_dir", output_data_dir); ("model_dir", model_dir);
         ("train", train); ("test", test); ("vocab", vocab) ]
  ∧ TrainingScript.parse_known_args environ
      ["--epochs"; NilEmpty.string_of_int (Z.to_int epochs);
       "--batch-size"; NilEmpty.string_of_int (Z.to_int batch_size)]
    = Ok [ ("epochs", NilEmpty.string_of_int (Z.to_int epochs));
           ("batch_size", NilEmpty.string_of_int (Z.to_int batch_size));
           ("dropout", "0.4"); ("num_layers", "1"); ("num_units", "300");
           ("model_type", "rnn");
           ("output_data_dir", output_data_dir); ("model_dir", model_dir);
           ("train", train); ("test", test); ("vocab", vocab) ].
Proof.
  intros H1 H2 H3 H4 H5.
  assert (Hd : TrainingScript.defaults environ TrainingScript.arguments
          = Ok [ ("epochs", "30"); ("batch_size", "64"); ("dropout", "0.4");
                 ("num_layers", "1"); ("num_units", "300"); ("model_type", "rnn");
                 ("output_data_dir", output_data_dir); ("model_dir", model_dir);
                 ("train", train); ("test", test); ("vocab", vocab) ]).
  { unfold TrainingScript.arguments.
    cbn [TrainingScript.defaults TrainingScript.default TrainingScript.flag].
    unfold TrainingScript.os_environ. rewrite H1, H2, H3, H4, H5. reflexivity. }
  unfold TrainingScript.parse_known_args. rewrite Hd. split; [done|].
  cbn [TrainingScript.parse].
  change (TrainingScript.find_argument "--epochs")
    with (Some {| TrainingScript.flag := "--epochs";
                  TrainingScript.type := TrainingScript.type_int;
                  TrainingScript.default := TrainingScript.Literal "30" |}).
  cbn [TrainingScript.type TrainingScript.flag]. rewrite accepts_int_of_Z.
  change (TrainingScript.find_argument "--batch-size")
    with (Some {| TrainingScript.flag := "--batch-size";
                  TrainingScript.type := TrainingScript.type_int;
                  TrainingScript.default := TrainingScript.Literal "64" |}).
  cbn [TrainingScript.type TrainingScript.flag]. rewrite accepts_int_of_Z. reflexivity.
Qed.

(* ================================================================== *)
(** ** More on the container and on hosting                            *)
(* ================================================================== *)

Lemma channel_variable_eq a b :
  Container.channel_variable a = Container.channel_variable b → Py.upper a = Py.upper b.
Proof. unfold Container.channel_variable. by intros ?%(inj _). Qed.

Lemma get_channel_variables (layout : Container.Layout) channels name :
  NoDup (map Py.upper channels) → In name channels →
  TrainingScript.get (Container.channel_variable name)
    (map (fun channel_name =>
            (Container.channel_variable channel_name,
             Container.channel_dir layout channel_name)) channels)
  = Some (Container.channel_dir layout name).
Proof.
  induction channels as [|n0 channels IH]; [done|].
  intros Hnd Hin. apply NoDup_cons in Hnd as [Hn0 Hnd]. cbn [map TrainingScript.get].
  destruct (String.eqb (Container.channel_variable n0) (Container.channel_variable name))
    eqn:Heq.
  - apply String.eqb_eq, channel_variable_eq in Heq.
    destruct Hin as [->|Hin]; [done|]. exfalso. apply Hn0.
    rewrite Heq. apply list_elem_of_In. by apply in_map.
  - destruct Hin as [->|Hin]; [by rewrite String.eqb_refl in Heq|]. by apply IH.
Qed.

(** X15. For any channels given to [fit] whose names differ even when put
    in capitals, the variable of each channel gives the directory of that
    channel: none is hidden by another or by a variable of the training
    environment. *)
Theorem every_channel_has_its_variable (layout : Container.Layout)
        (channels : list string) :
  NoDup (map Py.upper channels) →
  Forall (fun channel_name =>
            TrainingScript.os_environ (Container.environ layout channels)
              (Container.channel_variable channel_name)
            = Ok (Container.channel_dir layout channel_name)) channels.
Proof.
  intros Hnd. apply List.Forall_forall. intros name Hin.
  unfold TrainingScript.os_environ, Container.environ.
  cbn [app TrainingScript.get].
  assert (Hk : ∀ u, String.eqb "SM_MODEL_DIR" ("SM_CHANNEL_" +:+ u) = false
                    ∧ String.eqb "SM_NUM_GPUS" ("SM_CHANNEL_" +:+ u) = false
                    ∧ String.eqb "SM_OUTPUT_DIR" ("SM_CHANNEL_" +:+ u) = false
                    ∧ String.eqb "SM_OUTPUT_DATA_DIR" ("SM_CHANNEL_" +:+ u) = false)
    by done.
  unfold Container.channel_variable at 1 2 3 4.
  destruct (Hk (Py.upper name)) as (-> & -> & -> & ->).
  by rewrite (get_channel_variables layout channels name Hnd Hin).
Qed.

Section HostingMore.

Context {Model Array : Type}.
Variable model_call : Model -> Array -> Array.
Variable npy_loads : string -> Result Array.
Variable npy_dumps : Array -> string.

(** X16. A script that implements [model_fn] alone answers a request with
    the defaults: when the format decodes what it encodes, the response
    to an array decodes to what the model's [__call__] gives on it. *)
Theorem defaults_answer_with_model_call
        (s : Hosting.Script) load model (x : Array)
        (model_dir content_type accept : string) :
  (∀ a, npy_loads (npy_dumps a) = Ok a) →
  Hosting.model_fn s = Some load →
  Hosting.input_fn s = None →
  Hosting.predict_fn s = None →
  Hosting.output_fn s = None →
  load model_dir = Ok model →
  ∃ response,
    Hosting.invoke model_call npy_loads npy_dumps s model_dir (npy_dumps x)
      content_type accept = Ok response
    ∧ npy_loads response = Ok (model_call model x).
Proof.
  intros Hcodec Hm Hi Hp Ho Hload.
  unfold Hosting.invoke, Hosting.handlers. rewrite Hm, Hi, Hp, Ho.
  cbn [Hosting.load Hosting.deserialize Hosting.infer Hosting.serialize default].
  rewrite Hload. unfold Hosting.default_input_fn. rewrite Hcodec.
  unfold Hosting.default_predict_fn, Hosting.default_output_fn.
  eexists. split; [done|]. apply Hcodec.
Qed.

End HostingMore.

(* ================================================================== *)
(** ** The hyperparameters on their way to the script                  *)
(* ================================================================== *)

Section Hyperparameters.

Context {W : Type} (lib : External W).

(** X17. The estimator of cell 9 carries the hyperparameters epochs = 10
    and batch-size = 64. Given as [--epochs] and [--batch-size] to the
    script in a container with the channels of [fit], such a pair of
    integers, whatever their values, is accepted; the two replace the
    defaults 30 and 64 under the names [epochs] and [batch_size], and
    every other argument keeps its default. *)
Theorem hyperparameters_reach_script (layout : Container.Layout) session role
        train_input test_input vocab_input (w : World W) :
  ∃ estimator inputs o,
    trace (cell_9 lib session role train_input test_input vocab_input w).2
      = trace w ++ [(call_fit estimator inputs, o)]
    ∧ hyperparameters estimator = [("epochs", 10); ("batch-size", 64)]
    ∧ ∀ epochs batch_size : Z,
        TrainingScript.parse_known_args (Container.environ layout (map fst inputs))
          (Container.argv [("epochs", epochs); ("batch-size", batch_size)])
        = Ok [ ("epochs", NilEmpty.string_of_int (Z.to_int epochs));
               ("batch_size", NilEmpty.string_of_int (Z.to_int batch_size));
               ("dropout", "0.4"); ("num_layers", "1"); ("num_units", "300");
               ("model_type", "rnn");
               ("output_data_dir", Container.output_data_dir layout);
               ("model_dir", Container.model_dir layout);
               ("train", Container.channel_dir layout "train");
               ("test", Container.channel_dir layout "test");
               ("vocab", Container.channel_dir layout "vocab") ].
Proof.
  pattern (cell_9 lib session role train_input test_input vocab_input w).
  match goal with |- ?P _ => set (Q := P) end.
  nb_exec; subst Q; nb_leaf.
  all: eexists _, _, _; split; [reflexivity|]; split; [reflexivity|].
  all: intros epochs batch_size; cbn [map fst].
  all: unfold TrainingScript.parse_known_args.
  all: change (TrainingScript.defaults _ TrainingScript.arguments)
         with (Ok [ ("epochs", "30"); ("batch_size", "64"); ("dropout", "0.4");
                    ("num_layers", "1"); ("num_units", "300"); ("model_type", "rnn");
                    ("output_data_dir", Container.output_data_dir layout);
                    ("model_dir", Container.model_dir layout);
                    ("train", Container.channel_dir layout "train");
                    ("test", Container.channel_dir layout "test");
                    ("vocab", Container.channel_dir layout "vocab") ]).
  all: unfold Container.argv; cbn [flat_map app fst snd].
  all: change ("--" +:+ "epochs") with "--epochs";
       change ("--" +:+ "batch-size") with "--batch-size".
  all: cbn [TrainingScript.parse].
  all: change (TrainingScript.find_argument "--epochs")
         with (Some {| TrainingScript.flag := "--epochs";
                       TrainingScript.type := TrainingScript.type_int;
                       TrainingScript.default := TrainingScript.Literal "30" |}).
  all: cbn [TrainingScript.type TrainingScript.flag]; rewrite accepts_int_of_Z.
  all: change (TrainingScript.find_argument "--batch-size")
         with (Some {| TrainingScript.flag := "--batch-size";
                       TrainingScript.type := TrainingScript.type_int;
                       TrainingScript.default := TrainingScript.Literal "64" |}).
  all: cbn [TrainingScript.type TrainingScript.flag]; rewrite accepts_int_of_Z.
  all: reflexivity.
Qed.

End Hyperparameters.

(* ================================================================== *)
(** ** More on runs of the notebook                                    *)
(* ================================================================== *)

Section RunsMore.

Context {W : Type} (lib : External W).

(** X18. The endpoint is deleted in the runs that reach their end and in no
    other: cell 21 is the last cell and no [finally] clause covers it, so
    a run that raises after [deploy] has returned leaves the endpoint up.
    Every call of [predict] and of [delete_endpoint], whether it returns
    or raises, comes after [deploy] has returned. *)
Theorem endpoint_deleted_iff_completed (m : Fs.FS) (c : W) :
  endpoint_deleted (trace (run lib m c).2)
  = match (run lib m c).1 with Ok _ => true | Raise _ => false end
  ∧ only_after_deploy false (trace (run lib m c).2).
Proof.
  nb_run; split; cbn; done.
Qed.


End RunsMore.

(** One such run: the endpoint answers no request, the run stops in cell
    17 and the endpoint stays. *)
Example demo_endpoint_left_running :
  let t := trace (run Demo2.lib_failing_predict Demo.disk 0%nat).2 in
  endpoint_deployed t = true ∧ endpoint_deleted t = false.
Proof. vm_compute. done. Qed.

(* ================================================================== *)
(** ** These theorems at work on the example environment               *)
(* ================================================================== *)

Lemma short_file_sent_whole_witness :
  sent_to_endpoint Demo.train_text = map payload (lines_of Demo.train_text)
  ∧ String.concat EmptyString (lines_of Demo.train_text)
    = Py.universal_newlines Demo.train_text.
Proof.
  apply (short_file_sent_whole Demo.train_text).
  apply Nat.leb_le. vm_compute. reflexivity.
Defined.

(** Of a file whose first line is longer than 2000 characters, that line
    is sent and no other. *)
Lemma first_line_always_sent_witness :
  lines_of Demo2.long_text = [Demo2.long_line; "1 yes" +:+ LF]
  ∧ sent_to_endpoint Demo2.long_text = [payload Demo2.long_line].
Proof.
  assert (H : lines_of Demo2.long_text = [Demo2.long_line; "1 yes" +:+ LF])
    by (vm_compute; reflexivity).
  split; [exact H|].
  destruct (first_line_always_sent Demo2.long_text Demo2.long_line
              ["1 yes" +:+ LF] H) as [_ Honly].
  replace (2000 <? Z.of_nat (Py.len Demo2.long_line)) with true in Honly
    by (vm_compute; reflexivity).
  exact Honly.
Defined.

Lemma rows_printed_until_malformed_witness :
  let w := start Demo.disk 0%nat in
  let good := [["fun"; "1"; "0.9"]; ["slow"; "0"; "0.8"]] in
  for_print_predictions good w
  = (Ok tt,
     mkWorld (fs w) (cloud w) (trace w)
       (stdout w ++ map (fun row => format_row row +:+ LF) good))
  ∧ for_print_predictions (good ++ ["fast"; "1"] :: [["love"; "1"; "0.7"]]) w
    = (Raise (ValueError "unpack"),
       mkWorld (fs w) (cloud w) (trace w)
         (stdout w ++ map (fun row => format_row row +:+ LF) good)).
Proof.
  intros w good.
  apply (rows_printed_until_malformed good ["fast"; "1"] [["love"; "1"; "0.7"]] w).
  - repeat constructor.
  - simpl. lia.
Defined.

Lemma output_archive_requested_witness :
  let w := start Demo.disk 0%nat in
  ∃ o, trace (cell_11 Demo.lib "session" "job" w).2
       = trace w ++ [ (call_describe_training_job "job",
                       Returned (VStr ("s3://bucket/job/output/" +:+ "model.tar.gz")));
                      (call_retrieve_output_from_s3
                         ("s3://bucket/job/output/" +:+ "output.tar.gz")
                         "output/sentiment", o) ].
Proof.
  intros w.
  apply (output_archive_requested Demo.lib "session" "job" "s3://bucket/job/output/"
           0%nat w).
  - reflexivity.
  - vm_compute. reflexivity.
Defined.

Lemma other_location_passed_unchanged_witness :
  let w := start Demo.disk 0%nat in
  ∃ o, trace (cell_11 Demo2.lib_other_archive "session" "job" w).2
       = trace w ++ [ (call_describe_training_job "job",
                       Returned (VStr "s3://bucket/job/output/model.tgz"));
                      (call_retrieve_output_from_s3 "s3://bucket/job/output/model.tgz"
                         "output/sentiment", o) ].
Proof.
  intros w.
  apply (other_location_passed_unchanged Demo2.lib_other_archive "session" "job"
           "s3://bucket/job/output/model.tgz" 0%nat w).
  - reflexivity.
  - vm_compute. reflexivity.
Defined.

(** The file an earlier job left under /tmp/data is deleted with the
    rest. *)
Lemma existing_directory_fails_and_is_deleted_witness :
  let w := start Demo2.used_disk 0%nat in
  Fs.node_at (fs w) ["/"; "tmp"; "data"; "notes.txt"] = Some (Fs.File "keep")
  ∧ (cell_5 Demo.lib "session" [] [] [] w).1
    = Raise (FileExistsError ["/"; "tmp"; "data"; "train_sentiment"])
  ∧ fs (cell_5 Demo.lib "session" [] [] [] w).2 !! ["/"; "tmp"; "data"; "notes.txt"]
    = None.
Proof.
  intros w. split; [vm_compute; reflexivity|].
  destruct (existing_directory_fails_and_is_deleted Demo.lib "session" [] [] [] w Fs.Dir)
    as (Hraise & _ & _ & Hgone).
  - vm_compute. reflexivity.
  - vm_compute. reflexivity.
  - split; [exact Hraise|]. apply Hgone. by exists ["notes.txt"].
Defined.

(** A job started without the channel vocab: the script stops before it
    has looked at its arguments. *)
Lemma missing_variable_raises_witness :
  ∃ key',
    TrainingScript.parse_known_args (Container.environ Demo2.layout ["train"; "test"])
      ["--vocab"; "/opt/ml/input/data/vocab"] = Raise (KeyError key')
    ∧ In key' TrainingScript.variables_read
    ∧ TrainingScript.get key' (Container.environ Demo2.layout ["train"; "test"]) = None.
Proof.
  apply (missing_variable_raises (Container.environ Demo2.layout ["train"; "test"])
           ["--vocab"; "/opt/ml/input/data/vocab"] "SM_CHANNEL_VOCAB").
  - vm_compute. do 4 right. left. reflexivity.
  - vm_compute. reflexivity.
Defined.

Lemma defaults_and_overrides_witness :
  let environ := Container.environ Demo2.layout ["train"; "test"; "vocab"] in
  TrainingScript.parse_known_args environ []
  = Ok [ ("epochs", "30"); ("batch_size", "64"); ("dropout", "0.4");
         ("num_layers", "1"); ("num_units", "300"); ("model_type", "rnn");
         ("output_data_dir", "/opt/ml/output/data"); ("model_dir", "/opt/ml/model");
         ("train", "/opt/ml/input/data/train"); ("test", "/opt/ml/input/data/test");
         ("vocab", "/opt/ml/input/data/vocab") ]
  ∧ TrainingScript.parse_known_args environ ["--epochs"; "10"; "--batch-size"; "-32"]
    = Ok [ ("epochs", "10"); ("batch_size", "-32"); ("dropout", "0.4");
           ("num_layers", "1"); ("num_units", "300"); ("model_type", "rnn");
           ("output_data_dir", "/opt/ml/output/data"); ("model_dir", "/opt/ml/model");
           ("train", "/opt/ml/input/data/train"); ("test", "/opt/ml/input/data/test");
           ("vocab", "/opt/ml/input/data/vocab") ].
Proof.
  intros environ.
  apply (defaults_and_overrides environ "/opt/ml/output/data" "/opt/ml/model"
           "/opt/ml/input/data/train" "/opt/ml/input/data/test"
           "/opt/ml/input/data/vocab" 10 (-32)); vm_compute; reflexivity.
Defined.

Lemma every_channel_has_its_variable_witness :
  Forall (fun channel_name =>
            TrainingScript.os_environ
              (Container.environ Demo2.layout ["train"; "test"; "vocab"])
              (Container.channel_variable channel_name)
            = Ok (Container.channel_dir Demo2.layout channel_name))
         ["train"; "test"; "vocab"].
Proof.
  apply (every_channel_has_its_variable Demo2.layout ["train"; "test"; "vocab"]).
  apply (bool_decide_unpack _). vm_compute. reflexivity.
Defined.

Lemma defaults_answer_with_model_call_witness :
  ∃ response,
    Hosting.invoke Demo2.echo_call Demo2.echo_loads Demo2.echo_dumps Demo2.echo_script
      "model" (Demo2.echo_dumps " input") "application/x-npy" "application/x-npy"
    = Ok response
    ∧ Demo2.echo_loads response = Ok (Demo2.echo_call "model" " input").
Proof.
  apply (defaults_answer_with_model_call Demo2.echo_call Demo2.echo_loads
           Demo2.echo_dumps Demo2.echo_script (fun model_dir => Ok model_dir)
           "model" " input" "model" "application/x-npy" "application/x-npy");
    reflexivity.
Defined.
